(** * count_lines.py: the comment-aware line classifier and the file counter

    A shallow embedding of [look_for_code_in_line] and [count_real_lines]
    of [count_lines.py], and of their callers [iter_source_files], [main]
    and the block that runs the script.

    Python values are modelled as follows.
    - A [str] is the list of its Unicode code points ([N]).
    - An [int] (scan positions, results of [str.find], the real-line
      counter) is a [Z]; [str.find] answers [-1] when nothing is found.
    - The [while] loop of the classifier is a function on a fuel argument
      that answers [None] when the fuel runs out before the loop stops;
      the theorems show that [len(line)] units of fuel always suffice.
    - Reading a file is a list of events, one per [next(f)]: a line, or an
      exception raised by the read.
    - A [Path] is the list of its parts; what the file system answers
      ([is_file], [is_dir], [rglob], the contents of a file) is a record of
      functions, and a generator is the list of what it hands over.
    - A dict is the list of its keys and values in insertion order; what
      [print] writes is a list of lines. *)

From Stdlib Require Import ZArith NArith List Bool Lia Sorted.
From Stdlib Require String Ascii DecimalString.
Import ListNotations String.StringSyntax.
Open Scope Z_scope.

(** ** Strings *)

Module PyStr.

Definition char := N.
Definition str := list char.

(** A literal of the source, as code points. *)
Definition py (s : String.string) : str :=
  map Ascii.N_of_ascii (String.list_ascii_of_string s).
Delimit Scope string_scope with string.
Arguments py s%_string.

Definition len (s : str) : Z := Z.of_nat (length s).

(** [str.isspace] on one code point (the whitespace table of CPython). *)
Definition isspace (c : char) : bool :=
  (((9 <=? c) && (c <=? 13)) || ((28 <=? c) && (c <=? 32))
   || (c =? 133) || (c =? 160) || (c =? 5760)
   || ((8192 <=? c) && (c <=? 8202))
   || (c =? 8232) || (c =? 8233) || (c =? 8239) || (c =? 8287)
   || (c =? 12288))%N.

Fixpoint str_eqb (a b : str) : bool :=
  match a, b with
  | [], [] => true
  | x :: a', y :: b' => (x =? y)%N && str_eqb a' b'
  | _, _ => false
  end.

(** [s.startswith(p)]. *)
Fixpoint startswith (s p : str) {struct p} : bool :=
  match p, s with
  | [], _ => true
  | x :: p', y :: s' => (x =? y)%N && startswith s' p'
  | _ :: _, [] => false
  end.

(** [s.lstrip()]. *)
Fixpoint lstrip (s : str) : str :=
  match s with
  | [] => []
  | c :: s' => if isspace c then lstrip s' else s
  end.

(** [s.rstrip()]. *)
Definition rstrip (s : str) : str := rev (lstrip (rev s)).

(** [s.strip()]. *)
Definition strip (s : str) : str := rstrip (lstrip s).

Fixpoint drop_newlines (s : str) : str :=
  match s with
  | [] => []
  | c :: s' => if (c =? 10)%N then drop_newlines s' else s
  end.

(** [s.rstrip("\n")]. *)
Definition rstrip_nl (s : str) : str := rev (drop_newlines (rev s)).

(** Truth value of a string: non-empty. *)
Definition truthy (s : str) : bool :=
  match s with [] => false | _ :: _ => true end.

(** [s in l] for a list of strings. *)
Definition str_in (s : str) (l : list str) : bool := existsb (str_eqb s) l.

(** [s[i:]] for [0 <= i]. *)
Definition slice_from (s : str) (i : Z) : str := skipn (Z.to_nat i) s.

(** [s[i:j]] for [0 <= i] and [0 <= j]. *)
Definition slice (s : str) (i j : Z) : str :=
  firstn (Z.to_nat (j - i)) (skipn (Z.to_nat i) s).

(** Search of [sub] in [rest], the part of a string that starts at
    position [pos]. *)
Fixpoint find_at (sub rest : str) (pos : Z) : Z :=
  if startswith rest sub then pos
  else match rest with
       | [] => -1
       | _ :: rest' => find_at sub rest' (pos + 1)
       end.

(** [s.find(sub, start)] for [0 <= start]: the lowest position from
    [start] on at which [sub] occurs, [-1] when there is none. *)
Definition find (s sub : str) (start : Z) : Z :=
  if len s <? start then -1
  else find_at sub (slice_from s start) start.

End PyStr.

Import PyStr.

(** ** The Line Classifier *)

Definition close_marker : str := py "*/".
Definition open_marker : str := py "/*".
Definition backslash : str := py "\".
Definition line_comment : str := py "//".

(** What one pass through the body of the [while] loop does: it leaves the
    function with a result, or goes on with new values of [idx] and
    [in_comment]. *)
Inductive iteration : Type :=
| Return (result : bool * bool)
| Continue (idx : Z) (in_comment : bool).

Definition loop_body (line : str) (idx : Z) (in_comment : bool) : iteration :=
  if in_comment then
    let close_pos := find line close_marker idx in
    if close_pos =? -1 then Return (false, in_comment)
    else Continue (close_pos + 2) false
  else
    let open_pos := find line open_marker idx in
    if open_pos >=? 0 then
      if truthy (strip (slice line idx open_pos)) then Return (true, in_comment)
      else Continue (open_pos + 2) true
    else
      let after := strip (slice_from line idx) in
      if truthy after && negb (str_in after [backslash; line_comment])
      then Return (true, in_comment)
      else Continue (idx + 1) in_comment.

(** [while idx < len(line): ...] followed by [return (False, in_comment)].
    Each pass through the body uses one unit of fuel. *)
Fixpoint while_loop (fuel : nat) (line : str) (idx : Z) (in_comment : bool)
  : option (bool * bool) :=
  if idx <? len line then
    match fuel with
    | O => None
    | S fuel' =>
        match loop_body line idx in_comment with
        | Return r => Some r
        | Continue idx' in_comment' => while_loop fuel' line idx' in_comment'
        end
    end
  else Some (false, in_comment).

(** The loop started at any position and state, with the fuel that the
    distance to the end of the line allows. *)
Definition scan (line : str) (idx : Z) (in_comment : bool) : option (bool * bool) :=
  while_loop (Z.to_nat (len line - idx)) line idx in_comment.

(** [look_for_code_in_line(line)]: [idx = 0], [in_comment = True]. *)
Definition look_for_code_in_line (line : str) : option (bool * bool) :=
  while_loop (length line) line 0 true.

(** ** The File Counter *)

(** The exceptions that matter here: [OSError] derives from [Exception],
    [KeyboardInterrupt] from [BaseException] only. *)
Inductive exn : Type := OSError | KeyboardInterrupt.

Definition is_Exception (e : exn) : bool :=
  match e with
  | OSError => true
  | KeyboardInterrupt => false
  end.

(** What [next(f)] does, once per pass of [for raw in f]: it hands over a
    line or raises. The end of the list is the end of the file. *)
Inductive read : Type :=
| Line (raw : str)
| Raises (e : exn).

(** What [file_path.open(...)] does: it raises, or gives a file whose
    reads are the listed ones. *)
Inductive file : Type :=
| OpenRaises (e : exn)
| Opened (reads : list read).

(** The local variables of [count_real_lines]. *)
Record locals : Type := mkLocals { in_block_comment : bool; real : Z }.

(** [in_block_comment = False], [real = 0]. *)
Definition initial : locals := mkLocals false 0.

(** [found, in_block_comment = look_for_code_in_line(stripped)] followed by
    [if found: real += 1]. *)
Definition classify_and_count (v : locals) (stripped : str) : option locals :=
  match look_for_code_in_line stripped with
  | Some (found, in_block_comment') =>
      Some (mkLocals in_block_comment' (if found then real v + 1 else real v))
  | None => None
  end.

(** The body of [for raw in f]. *)
Definition for_body (v : locals) (raw : str) : option locals :=
  let line := rstrip_nl raw in
  if negb (truthy (strip line)) then Some v
  else
    let stripped := lstrip line in
    if startswith stripped line_comment then Some v
    else if startswith stripped open_marker then classify_and_count v stripped
    else if in_block_comment v then classify_and_count v stripped
    else Some (mkLocals (in_block_comment v) (real v + 1)).

(** [for raw in f: ...]: the local variables when the loop is left, and the
    exception that left it, if any. *)
Fixpoint for_loop (reads : list read) (v : locals) : option (locals * option exn) :=
  match reads with
  | [] => Some (v, None)
  | Raises e :: _ => Some (v, Some e)
  | Line raw :: reads' =>
      match for_body v raw with
      | Some v' => for_loop reads' v'
      | None => None
      end
  end.

(** How a call of [count_real_lines] ends. *)
Inductive outcome : Type :=
| Returns (n : Z)
| Propagates (e : exn).

(** [count_real_lines(file_path)]: the [try] block, [except Exception: pass],
    [return real]. *)
Definition count_real_lines (f : file) : option outcome :=
  let tried :=
    match f with
    | OpenRaises e => Some (initial, Some e)
    | Opened reads => for_loop reads initial
    end in
  match tried with
  | None => None
  | Some (v, None) => Some (Returns (real v))
  | Some (v, Some e) =>
      if is_Exception e then Some (Returns (real v)) else Some (Propagates e)
  end.

(** A file that opens and is read to its end without error. *)
Definition readable (lines : list str) : file := Opened (map Line lines).

(** ** The files of the repository's tests *)

(** The double quote and the tab, which the literals below cannot hold. *)
Definition dq : str := [34%N].
Definition tab : str := [9%N].

(** A line as [next(f)] hands it over, with its newline. *)
Definition nl (s : str) : str := s ++ [10%N].

Definition printf_hello : str := py "printf(" ++ dq ++ py "Hello" ++ dq ++ py ");".

(** [main.c] of [tests/test_count_lines.py]. *)
Definition main_c : list str :=
  [ nl [];
    nl (py "            #include <stdio.h>");
    nl (py "            ");
    nl (py "            int main() {");
    nl (py "                " ++ printf_hello ++ py "  /* inline comment */");
    nl (py "                /* inline comment */ " ++ printf_hello);
    nl (py "                return 0; // trailing comment");
    nl (py "            }");
    nl (py "            /* Line comment */");
    nl (py "            /* block comment ");
    nl [];
    nl (py "            */");
    nl (py "            /* block comment ");
    nl [];
    nl (py "            */ " ++ printf_hello);
    nl (py "            /* block comment ");
    nl [];
    nl (py "            */ /* block comment ");
    nl [];
    nl (py "            */");
    nl (py "            // full line comment");
    nl (py "               " ++ tab ++ py "  ");
    py "        " ].

(** [utils.h] of [tests/test_count_lines.py]. *)
Definition utils_h : list str :=
  [ nl [];
    nl (py "            #ifndef UTILS_H");
    nl (py "            #define UTILS_H");
    nl (py "            ");
    nl (py "            void helper(); /* declaration */");
    nl (py "            ");
    nl (py "            #endif");
    py "        " ].

(** [empty.c] and [auto_gen/generated.c] of the same tests. *)
Definition empty_c : list str := [ nl []; nl []; nl (py "   ") ].
Definition generated_c : list str := [ py "int x = 1;" ].

(** ** The source files of a tree *)

(** A [Path], as the tuple [parts] of its components. *)
Definition path := list str.

(** [p.name]: the final component. *)
Definition name (p : path) : str := last p [].

(** What the file system and [pathlib] answer: [p.is_file()], [p.is_dir()],
    the suffix of a final component ([p.suffix]), the paths that
    [root.rglob("*")] hands over, each by its parts below [root] and in the
    order of the walk, and what opening and reading the file at [p] does. *)
Record world : Type := mkWorld {
  is_file : path -> bool;
  is_dir : path -> bool;
  suffix : str -> str;
  rglob : path -> list path;
  contents : path -> file
}.

(** [any(exc in parts for exc in excludes)]. The command line passes [None]
    for [excludes] when [--ext] is given and [--exclude] is not; iterating
    [None] raises [TypeError], here the answer [None]. *)
Definition any_excluded (parts : path) (excludes : option (list str))
  : option bool :=
  match excludes with
  | None => None
  | Some l => Some (existsb (fun exc => str_in exc parts) l)
  end.

(** What a generator has handed over when it stops, and whether it stopped
    by [TypeError]. *)
Record generated : Type := mkGenerated {
  items : list (path * path);
  type_error : bool
}.

(** [for path in root.rglob("*"): ...] of [iter_source_files], over the
    paths still to come. *)
Fixpoint walk (w : world) (root : path) (excludes : option (list str))
         (exts : list str) (below : list path) : generated :=
  match below with
  | [] => mkGenerated [] false
  | rel_parts :: below' =>
      let p := root ++ rel_parts in
      if is_file w p && str_in (suffix w (name p)) exts then
        match any_excluded p excludes with
        | None => mkGenerated [] true
        | Some true => walk w root excludes exts below'
        | Some false =>
            let g := walk w root excludes exts below' in
            mkGenerated ((p, rel_parts) :: items g) (type_error g)
        end
      else walk w root excludes exts below'
  end.

(** [iter_source_files(root, excludes, exts)]. *)
Definition iter_source_files (w : world) (root : path)
           (excludes : option (list str)) (exts : list str) : generated :=
  if is_file w root then
    if str_in (suffix w (name root)) exts then
      match any_excluded root excludes with
      | None => mkGenerated [] true
      | Some true => mkGenerated [] false
      | Some false => mkGenerated [(root, [name root])] false
      end
    else mkGenerated [] false
  else if is_dir w root then walk w root excludes exts (rglob w root)
  else mkGenerated [] false.

(** ** The report *)

(** The dict [counts]: keys with their values, in the order in which the
    keys were first set. *)
Definition dict := list (path * Z).

Fixpoint path_eqb (a b : path) : bool :=
  match a, b with
  | [], [] => true
  | x :: a', y :: b' => str_eqb x y && path_eqb a' b'
  | _, _ => false
  end.

(** [d.get(key, default)]. *)
Fixpoint dict_get (d : dict) (key : path) (default : Z) : Z :=
  match d with
  | [] => default
  | (k, v) :: d' => if path_eqb k key then v else dict_get d' key default
  end.

(** [d[key] = value]. *)
Fixpoint dict_set (d : dict) (key : path) (value : Z) : dict :=
  match d with
  | [] => [(key, value)]
  | (k, v) :: d' =>
      if path_eqb k key then (k, value) :: d'
      else (k, v) :: dict_set d' key value
  end.

(** [d.keys()]. *)
Definition dict_keys (d : dict) : list path := map fst d.

(** The local variables [total] and [counts] of [main]. *)
Record tally : Type := mkTally { total : Z; counts : dict }.

(** [for i in range(min(depth, len(rel_parts) - 1)): ...], over the values
    of [i] still to come. *)
Definition add_to_prefixes (rel_parts : path) (file_count : Z)
           (c : dict) (indices : list nat) : dict :=
  fold_left
    (fun c i =>
       let key := firstn (i + 1) rel_parts in
       dict_set c key (dict_get c key 0 + file_count))
    indices c.

(** The body of the first loop of [main], once [count_real_lines] has
    returned [file_count]. *)
Definition add_file (depth : Z) (rel_parts : path) (file_count : Z)
           (t : tally) : tally :=
  mkTally (total t + file_count)
          (add_to_prefixes rel_parts file_count (counts t)
             (seq 0 (Z.to_nat (Z.min depth (Z.of_nat (length rel_parts) - 1))))).

(** How a run of [main] ends: with the lines it printed, or by an
    exception before it prints anything. *)
Inductive ending : Type :=
| Printed (lines : list str)
| Interrupted (e : exn)
| TypeError.

(** The first loop of [main] over the items handed over: the tally, or the
    exception that left [count_real_lines]. *)
Fixpoint tally_files (w : world) (depth : Z) (l : list (path * path))
         (t : tally) : option (tally + exn) :=
  match l with
  | [] => Some (inl t)
  | (src_file, rel_parts) :: l' =>
      match count_real_lines (contents w src_file) with
      | None => None
      | Some (Propagates e) => Some (inr e)
      | Some (Returns file_count) =>
          tally_files w depth l' (add_file depth rel_parts file_count t)
      end
  end.

(** [sep.join(parts)]. *)
Fixpoint join (sep : str) (parts : list str) : str :=
  match parts with
  | [] => []
  | [x] => x
  | x :: parts' => x ++ sep ++ join sep parts'
  end.

(** [a < b] on strings: the order of the code points at the first
    difference, a proper prefix first. *)
Fixpoint str_ltb (a b : str) : bool :=
  match a, b with
  | _, [] => false
  | [], _ :: _ => true
  | x :: a', y :: b' => (x <? y)%N || ((x =? y)%N && str_ltb a' b')
  end.

(** [sorted(keys, key=lambda x: " ".join(x))]: the stable sort, which
    leaves keys of equal rank in the order they came in. *)
Definition rank (key : path) : str := join (py " ") key.

Fixpoint insert_sorted (key : path) (l : list path) : list path :=
  match l with
  | [] => [key]
  | k :: l' =>
      if str_ltb (rank k) (rank key) then k :: insert_sorted key l'
      else key :: l
  end.

Definition sorted (keys : list path) : list path :=
  fold_right insert_sorted [] keys.

(** [s * n] on a string. *)
Definition repeat_str (s : str) (n : Z) : str :=
  concat (repeat s (Z.to_nat n)).

(** [str(n)] on an int. *)
Definition str_of_int (n : Z) : str :=
  py (DecimalString.NilZero.string_of_int (Z.to_int n)).

(** [f"{indent}{key[-1]}/: {counts[key]}"], the key being in the dict. *)
Definition report_line (c : dict) (key : path) : str :=
  let indent := repeat_str (py "  ") (Z.of_nat (length key) - 1) in
  indent ++ last key [] ++ py "/: " ++ str_of_int (dict_get c key 0).

(** [f"TOTAL: {total}"]. *)
Definition total_line (n : Z) : str := py "TOTAL: " ++ str_of_int n.

(** [main], from the resolved [root] on. *)
Definition main (w : world) (root : path) (excludes : option (list str))
           (exts : list str) (depth : Z) : option ending :=
  let g := iter_source_files w root excludes exts in
  match tally_files w depth (items g) (mkTally 0 []) with
  | None => None
  | Some (inr e) => Some (Interrupted e)
  | Some (inl t) =>
      if type_error g then Some TypeError
      else Some (Printed (map (report_line (counts t))
                              (sorted (dict_keys (counts t)))
                         ++ [total_line (total t)]))
  end.

(** ** The command line *)

Definition DEFAULT_EXTS : list str := [py ".c"; py ".h"; py ".cpp"].

(** What [parse_args()] gives: [exclude] and [ext] are [None] when their
    option is not given, else the list of the values given. *)
Record arguments : Type := mkArguments {
  arg_path : path;
  arg_exclude : option (list str);
  arg_ext : option (list str);
  arg_depth : Z
}.

(** [not args.ext]. *)
Definition no_ext (a : arguments) : bool :=
  match arg_ext a with
  | None | Some [] => true
  | Some (_ :: _) => false
  end.

(** The block under [if __name__ == "__main__"], after [parse_args()]. *)
Definition script (w : world) (a : arguments) : option ending :=
  let exts :=
    if no_ext a then DEFAULT_EXTS
    else match arg_ext a with Some l => l | None => [] end in
  let excs := if no_ext a then Some [] else arg_exclude a in
  main w (arg_path a) excs exts (arg_depth a).

(** ** The tree of the repository's tests *)

(** [name.rfind(".")], the search being at position [pos] of the name. *)
Fixpoint rfind_dot (s : str) (pos : Z) : Z :=
  match s with
  | [] => -1
  | c :: s' =>
      let later := rfind_dot s' (pos + 1) in
      if later >=? 0 then later else if (c =? 46)%N then pos else -1
  end.

(** [PurePath.suffix] on a final component, as CPython computes it: from
    the last dot on, when that dot is neither the first nor the last
    character. *)
Definition py_suffix (s : str) : str :=
  let i := rfind_dot s 0 in
  if (0 <? i) && (i <? len s - 1) then slice_from s i else [].

Definition path_in (p : path) (l : list path) : bool := existsb (path_eqb p) l.

(** The temporary directory of [tests/test_count_lines.py], at a place of
    its own, with the four files of [setUp]. *)
Definition test_root : path := [py "/"; py "tmp"; py "t"].

Definition test_files : list (path * list str) :=
  [ ([py "main.c"], main_c);
    ([py "utils.h"], utils_h);
    ([py "auto_gen"; py "generated.c"], generated_c);
    ([py "empty.c"], empty_c) ].

Fixpoint lines_at (files : list (path * list str)) (rel : path)
  : option (list str) :=
  match files with
  | [] => None
  | (r, lines) :: files' =>
      if path_eqb r rel then Some lines else lines_at files' rel
  end.

Definition test_world : world :=
  mkWorld
    (fun p => path_in p (map (fun f => test_root ++ fst f) test_files))
    (fun p => path_in p [test_root; test_root ++ [py "auto_gen"]])
    py_suffix
    (fun p =>
       if path_eqb p test_root
       then [[py "main.c"]; [py "utils.h"]; [py "auto_gen"];
             [py "auto_gen"; py "generated.c"]; [py "empty.c"]]
       else if path_eqb p (test_root ++ [py "auto_gen"])
       then [[py "generated.c"]]
       else [])
    (fun p =>
       match lines_at test_files (skipn 3 p) with
       | Some lines =>
           if path_in p (map (fun f => test_root ++ fst f) test_files)
           then readable lines else OpenRaises OSError
       | None => OpenRaises OSError
       end).

(** [sum(count_real_lines(p) for p, _ in iter_source_files(...))]. *)
Fixpoint sum_counts (w : world) (l : list (path * path)) : option Z :=
  match l with
  | [] => Some 0
  | (p, _) :: l' =>
      match count_real_lines (contents w p), sum_counts w l' with
      | Some (Returns n), Some m => Some (n + m)
      | _, _ => None
      end
  end.

(** The same sum in the tree of the tests. *)
Definition found (root : path) (excludes exts : list str) : option Z :=
  sum_counts test_world
             (items (iter_source_files test_world root (Some excludes) exts)).

(** ** Vocabulary of the statements *)

(** [stripped] of the file counter's loop, from the line as read. *)
Definition stripped_line (raw : str) : str := lstrip (rstrip_nl raw).

(** The line is neither blank nor, once trimmed on the left, one that
    starts with the line-comment marker. *)
Definition plain (raw : str) : bool :=
  truthy (strip (rstrip_nl raw))
  && negb (startswith (stripped_line raw) line_comment).

(** The line holds no close marker. *)
Definition unclosed (raw : str) : Prop :=
  find (stripped_line raw) close_marker 0 = -1.

(** A character that [strip] keeps. *)
Definition nonspace (c : char) : bool := negb (isspace c).

(** The character of both markers that whitespace and slashes are not. *)
Definition is_star (c : char) : bool := (42 =? c)%N.

(** [body] holds no close marker: the first one in [body] followed by a
    close marker is that marker. *)
Definition closes_at_end (body : str) : Prop :=
  find (body ++ close_marker) close_marker 0 = len body.

(** [code] holds no open marker before the one that follows it. *)
Definition opens_at_end (code : str) : Prop :=
  find (code ++ open_marker) open_marker 0 = len code.

(** A block comment on one line, after a gap of whitespace. *)
Definition comment (gap body : str) : str :=
  gap ++ open_marker ++ body ++ close_marker.

Definition well_formed (gb : str * str) : Prop :=
  forallb isspace (fst gb) = true /\ closes_at_end (snd gb).

(** Comments one after the other. *)
Fixpoint comments (l : list (str * str)) : str :=
  match l with
  | [] => []
  | gb :: l' => comment (fst gb) (snd gb) ++ comments l'
  end.

(** The walk looks at the file at [p]: it is a file with a wanted suffix. *)
Definition candidate (w : world) (exts : list str) (p : path) : bool :=
  is_file w p && str_in (suffix w (name p)) exts.

(** Some string of [excludes] is a component of [p]. *)
Definition has_part (p : path) (excludes : list str) : bool :=
  existsb (fun exc => str_in exc p) excludes.

(** The count of the file at [p], when [count_real_lines] returns one. *)
Definition count_at (w : world) (p : path) : Z :=
  match count_real_lines (contents w p) with
  | Some (Returns n) => n
  | _ => 0
  end.

(** No file of the world raises past [count_real_lines]. *)
Definition calm (w : world) : Prop :=
  forall p, exists n, count_real_lines (contents w p) = Some (Returns n).

(** The sum of the counts of the files handed over. *)
Fixpoint total_of (w : world) (l : list (path * path)) : Z :=
  match l with
  | [] => 0
  | (p, _) :: l' => count_at w p + total_of w l'
  end.

(** [key] names a directory above the file with the parts [rel_parts]: it
    is a prefix of them, not empty and without the file's name. *)
Definition above (key rel_parts : path) : bool :=
  (1 <=? length key)%nat && (length key <? length rel_parts)%nat
  && path_eqb key (firstn (length key) rel_parts).

(** [key] is a key of the report at [depth] for that file. *)
Definition reported (depth : Z) (key rel_parts : path) : bool :=
  above key rel_parts && (Z.of_nat (length key) <=? depth).

(** The sum of the counts of the files handed over for which [key] is
    reported. *)
Fixpoint total_under (w : world) (depth : Z) (key : path)
         (l : list (path * path)) : Z :=
  match l with
  | [] => 0
  | (p, rel_parts) :: l' =>
      (if reported depth key rel_parts then count_at w p else 0)
      + total_under w depth key l'
  end.

(** The key is hit by one of the first [n] passes of the inner loop of
    [main] on a file with the parts [rel_parts]. *)
Definition hit (n : nat) (rel_parts key : path) : bool :=
  (1 <=? length key)%nat && (length key <=? n)%nat
  && path_eqb key (firstn (length key) rel_parts).

(** The line that [main] prints for a directory key and its count. *)
Definition directory_line (key : path) (n : Z) : str :=
  repeat_str (py "  ") (Z.of_nat (length key) - 1)
  ++ last key [] ++ py "/: " ++ str_of_int n.

(** The number of passes of the inner loop of [main] on a file with the
    parts [rel_parts]. *)
Definition passes (depth : Z) (rel_parts : path) : nat :=
  Z.to_nat (Z.min depth (Z.of_nat (length rel_parts) - 1)).

(** Some file handed over is reported under [key]. *)
Definition has_file_under (depth : Z) (key : path) (l : list (path * path))
  : Prop :=
  exists p rel_parts, In (p, rel_parts) l /\ reported depth key rel_parts = true.

(** The order of the report: [k1] is not ranked after [k2]. *)
Definition key_le (k1 k2 : path) : Prop :=
  str_ltb (rank k2) (rank k1) = false.

(** ** Facts about the string operations *)

Section StringFacts.

Lemma len_nonneg (s : str) : 0 <= len s.
Proof. unfold len. lia. Qed.

Lemma len_app (a b : str) : len (a ++ b) = len a + len b.
Proof. unfold len. rewrite length_app. lia. Qed.

Lemma len_slice_from (s : str) (i : Z) :
  0 <= i <= len s -> len (slice_from s i) = len s - i.
Proof.
  unfold len, slice_from. intros H. rewrite length_skipn. lia.
Qed.

Lemma startswith_len (s p : str) :
  startswith s p = true -> len p <= len s.
Proof.
  revert s. induction p as [|x p IH]; intros s H.
  - unfold len. simpl. lia.
  - destruct s as [|y s]; simpl in H; [discriminate|].
    apply andb_true_iff in H. destruct H as [_ H].
    apply IH in H. unfold len in *. simpl. lia.
Qed.

(** A match of [sub] that fits in [s] is not changed by what follows [s]. *)
Lemma startswith_app (s t sub : str) :
  len sub <= len s -> startswith (s ++ t) sub = startswith s sub.
Proof.
  revert s. induction sub as [|x sub IH]; intros s H.
  - reflexivity.
  - destruct s as [|y s].
    + unfold len in H. simpl in H. lia.
    + simpl. f_equal. apply IH. unfold len in *. simpl in H. lia.
Qed.

(** A search answers [-1], or a position at which [sub] fits. *)
Lemma find_at_bounds (sub rest : str) (pos : Z) :
  find_at sub rest pos = -1 \/
  (pos <= find_at sub rest pos /\
   find_at sub rest pos + len sub <= pos + len rest).
Proof.
  revert pos. induction rest as [|c rest IH]; intros pos.
  - simpl. destruct (startswith [] sub) eqn:E.
    + right. apply startswith_len in E. lia.
    + now left.
  - cbn [find_at]. destruct (startswith (c :: rest) sub) eqn:E.
    + right. apply startswith_len in E. lia.
    + destruct (IH (pos + 1)) as [H|H]; [now left|right].
      unfold len in *. simpl. lia.
Qed.

Lemma find_bounds (s sub : str) (start : Z) :
  0 <= start ->
  find s sub start = -1 \/
  (start <= find s sub start /\ find s sub start + len sub <= len s).
Proof.
  intros H0. unfold find. destruct (len s <? start) eqn:E; [now left|].
  apply Z.ltb_ge in E.
  destruct (find_at_bounds sub (slice_from s start) start) as [H|H];
    [now left|right].
  rewrite len_slice_from in H by lia. lia.
Qed.

(** Moving the origin of the positions moves the answer of a search. *)
Lemma find_at_shift (sub rest : str) (k pos : Z) :
  0 <= pos -> 0 <= k ->
  find_at sub rest (k + pos) =
  if find_at sub rest pos =? -1 then -1 else k + find_at sub rest pos.
Proof.
  revert pos. induction rest as [|c rest IH]; intros pos Hp Hk.
  - simpl. destruct (startswith [] sub).
    + destruct (pos =? -1) eqn:E; [lia|reflexivity].
    + reflexivity.
  - cbn [find_at]. destruct (startswith (c :: rest) sub).
    + destruct (pos =? -1) eqn:E; [lia|reflexivity].
    + replace (k + pos + 1) with (k + (pos + 1)) by lia.
      apply IH; lia.
Qed.

(** An occurrence found in [s] is the one found in [s ++ t]. *)
Lemma find_at_app_found (sub s t : str) (pos : Z) :
  0 <= pos -> find_at sub s pos <> -1 ->
  find_at sub (s ++ t) pos = find_at sub s pos.
Proof.
  revert pos. induction s as [|c s IH]; intros pos Hp Hf.
  - simpl in *. destruct (startswith [] sub) eqn:E; [|congruence].
    destruct sub; [|discriminate]. destruct t; reflexivity.
  - cbn [find_at app] in *.
    destruct (startswith (c :: s) sub) eqn:E.
    + change (c :: s ++ t) with ((c :: s) ++ t).
      rewrite startswith_app by (now apply startswith_len). now rewrite E.
    + destruct (find_at_bounds sub s (pos + 1)) as [H|H]; [congruence|].
      change (c :: s ++ t) with ((c :: s) ++ t).
      rewrite startswith_app, E.
      * apply IH; [lia|assumption].
      * unfold len in *. simpl. lia.
Qed.

Lemma slice_from_0 (s : str) : slice_from s 0 = s.
Proof. reflexivity. Qed.

Lemma slice_from_app (pre s : str) (i : Z) :
  0 <= i -> slice_from (pre ++ s) (len pre + i) = slice_from s i.
Proof.
  intros H. unfold slice_from, len.
  replace (Z.to_nat (Z.of_nat (length pre) + i))
    with (length pre + Z.to_nat i)%nat by lia.
  rewrite skipn_app, skipn_all2 by lia.
  simpl. f_equal. lia.
Qed.

Lemma slice_app (pre s : str) (i j : Z) :
  0 <= i -> slice (pre ++ s) (len pre + i) (len pre + j) = slice s i j.
Proof.
  intros H. unfold slice.
  fold (slice_from (pre ++ s) (len pre + i)). rewrite slice_from_app by lia.
  unfold slice_from. f_equal. lia.
Qed.

Lemma find_app (pre s sub : str) (i : Z) :
  0 <= i ->
  find (pre ++ s) sub (len pre + i) =
  if find s sub i =? -1 then -1 else len pre + find s sub i.
Proof.
  intros H. unfold find. rewrite len_app.
  pose proof (len_nonneg pre) as Hpre.
  destruct (len s <? i) eqn:E.
  - replace (len pre + len s <? len pre + i) with true
      by (symmetry; apply Z.ltb_lt; apply Z.ltb_lt in E; lia).
    reflexivity.
  - replace (len pre + len s <? len pre + i) with false
      by (symmetry; apply Z.ltb_ge; apply Z.ltb_ge in E; lia).
    rewrite slice_from_app by lia. apply find_at_shift; lia.
Qed.

End StringFacts.

(** ** Facts about whitespace *)

Section Whitespace.

Lemma truthy_rev (s : str) : truthy (rev s) = truthy s.
Proof.
  destruct s as [|c s]; [reflexivity|]. simpl.
  destruct (rev s); reflexivity.
Qed.

Lemma truthy_lstrip (s : str) : truthy (lstrip s) = existsb nonspace s.
Proof.
  induction s as [|c s IH]; [reflexivity|].
  simpl. unfold nonspace at 1. destruct (isspace c); [exact IH|reflexivity].
Qed.

Lemma existsb_lstrip (s : str) :
  existsb nonspace (lstrip s) = existsb nonspace s.
Proof.
  induction s as [|c s IH]; [reflexivity|].
  simpl. destruct (isspace c) eqn:E; [|reflexivity].
  unfold nonspace at 2. rewrite E. exact IH.
Qed.

Lemma existsb_nonspace_rev (s : str) :
  existsb nonspace (rev s) = existsb nonspace s.
Proof.
  induction s as [|c s IH]; [reflexivity|].
  simpl. rewrite existsb_app, IH. simpl.
  rewrite orb_false_r. apply orb_comm.
Qed.

(** [s.strip()] is non-empty exactly when [s] has a character that is not
    whitespace. *)
Lemma truthy_strip (s : str) : truthy (strip s) = existsb nonspace s.
Proof.
  unfold strip, rstrip.
  now rewrite truthy_rev, truthy_lstrip, existsb_nonspace_rev, existsb_lstrip.
Qed.

Lemma strip_whitespace (s : str) :
  forallb isspace s = true -> strip s = [].
Proof.
  intros H.
  assert (E : existsb nonspace s = false).
  { induction s as [|c s IH]; [reflexivity|].
    simpl in *. apply andb_true_iff in H. destruct H as [Hc Hs].
    unfold nonspace at 1. rewrite Hc. now apply IH. }
  rewrite <- truthy_strip in E. now destruct (strip s).
Qed.

Lemma startswith_nonspace (s p : str) (c : char) :
  startswith s (c :: p) = true -> isspace c = false ->
  existsb nonspace s = true.
Proof.
  intros H Hc. destruct s as [|y s]; [discriminate|].
  simpl in H. apply andb_true_iff in H. destruct H as [H _].
  apply N.eqb_eq in H. subst y. simpl. unfold nonspace at 1. now rewrite Hc.
Qed.

(** Whitespace does not start a marker. *)
Lemma isspace_not_slash (c : char) : isspace c = true -> (47 =? c)%N = false.
Proof.
  intros H. destruct (47 =? c)%N eqn:E; [|reflexivity].
  apply N.eqb_eq in E. subst c. discriminate.
Qed.

End Whitespace.

(** ** Facts about the classifier's loop *)

Section Loop.

Lemma len_close_marker : len close_marker = 2.
Proof. reflexivity. Qed.

Lemma len_open_marker : len open_marker = 2.
Proof. reflexivity. Qed.

(** A pass that goes on moves the scan position forward, and not beyond
    the end of the line. *)
Lemma loop_body_progress (line : str) (idx : Z) (c : bool) (idx' : Z) (c' : bool) :
  0 <= idx < len line ->
  loop_body line idx c = Continue idx' c' ->
  idx < idx' <= len line.
Proof.
  intros Hidx. unfold loop_body. destruct c.
  - destruct (find_bounds line close_marker idx) as [H|H]; [lia| |].
    + rewrite H. simpl. discriminate.
    + destruct (find line close_marker idx =? -1); [discriminate|].
      intros E. injection E as <- _. rewrite len_close_marker in H. lia.
  - destruct (find_bounds line open_marker idx) as [H|H]; [lia| |].
    + rewrite H. simpl.
      destruct (_ && _); [discriminate|].
      intros E. injection E as <- _. lia.
    + destruct (find line open_marker idx >=? 0) eqn:G.
      * destruct (truthy _); [discriminate|].
        intros E. injection E as <- _. rewrite len_open_marker in H. lia.
      * destruct (_ && _); [discriminate|].
        intros E. injection E as <- _. lia.
Qed.

(** With as much fuel as there are characters left, the loop stops. *)
Lemma while_loop_enough (fuel : nat) (line : str) (idx : Z) (c : bool) :
  0 <= idx -> len line - idx <= Z.of_nat fuel ->
  exists r, while_loop fuel line idx c = Some r.
Proof.
  revert idx c. induction fuel as [|fuel IH]; intros idx c H0 Hf.
  - cbn [while_loop]. destruct (idx <? len line) eqn:E.
    + apply Z.ltb_lt in E. lia.
    + eauto.
  - cbn [while_loop]. destruct (idx <? len line) eqn:E; [|eauto].
    apply Z.ltb_lt in E.
    destruct (loop_body line idx c) as [r|idx' c'] eqn:B; [eauto|].
    apply loop_body_progress in B; [|lia].
    apply IH; lia.
Qed.

(** More fuel does not change a result. *)
Lemma while_loop_mono (fuel fuel' : nat) (line : str) (idx : Z) (c : bool)
      (r : bool * bool) :
  while_loop fuel line idx c = Some r -> (fuel <= fuel')%nat ->
  while_loop fuel' line idx c = Some r.
Proof.
  revert fuel' idx c. induction fuel as [|fuel IH]; intros fuel' idx c H Hle.
  - cbn [while_loop] in H. destruct (idx <? len line) eqn:E; [discriminate|].
    destruct fuel'; cbn [while_loop]; now rewrite E.
  - destruct fuel' as [|fuel']; [lia|].
    cbn [while_loop] in *. destruct (idx <? len line); [|exact H].
    destruct (loop_body line idx c) as [r0|idx' c']; [exact H|].
    apply IH; [exact H|lia].
Qed.

Lemma while_loop_scan (fuel : nat) (line : str) (idx : Z) (c : bool) :
  0 <= idx -> len line - idx <= Z.of_nat fuel ->
  while_loop fuel line idx c = scan line idx c.
Proof.
  intros H0 Hf. unfold scan.
  destruct (while_loop_enough (Z.to_nat (len line - idx)) line idx c)
    as [r Hr]; [lia|lia|].
  rewrite Hr. apply while_loop_mono with (1 := Hr). lia.
Qed.

(** The loop, one pass at a time. *)
Lemma scan_unfold (line : str) (idx : Z) (c : bool) :
  0 <= idx ->
  scan line idx c =
  if idx <? len line then
    match loop_body line idx c with
    | Return r => Some r
    | Continue idx' c' => scan line idx' c'
    end
  else Some (false, c).
Proof.
  intros H0. unfold scan at 1.
  destruct (idx <? len line) eqn:E.
  - apply Z.ltb_lt in E.
    destruct (Z.to_nat (len line - idx)) as [|n] eqn:F; [lia|].
    cbn [while_loop]. replace (idx <? len line) with true
      by (symmetry; now apply Z.ltb_lt).
    destruct (loop_body line idx c) as [r|idx' c'] eqn:B; [reflexivity|].
    apply loop_body_progress in B; [|lia].
    apply while_loop_scan; lia.
  - destruct (Z.to_nat (len line - idx)); cbn [while_loop]; now rewrite E.
Qed.

Lemma look_for_code_in_line_scan (line : str) :
  look_for_code_in_line line = scan line 0 true.
Proof.
  unfold look_for_code_in_line, scan. f_equal. unfold len. lia.
Qed.

Lemma look_for_code_in_line_total (line : str) :
  exists r, look_for_code_in_line line = Some r.
Proof.
  apply while_loop_enough; unfold len; lia.
Qed.

(** What precedes the scan position has no part in a pass. *)
Lemma loop_body_app (pre s : str) (i : Z) (c : bool) :
  0 <= i ->
  loop_body (pre ++ s) (len pre + i) c =
  match loop_body s i c with
  | Return r => Return r
  | Continue i' c' => Continue (len pre + i') c'
  end.
Proof.
  intros H0. pose proof (len_nonneg pre) as Hpre.
  unfold loop_body. destruct c.
  - rewrite find_app by lia.
    destruct (find_bounds s close_marker i) as [H|H]; [lia| |].
    + rewrite H. reflexivity.
    + destruct (find s close_marker i =? -1) eqn:E; [reflexivity|].
      replace (len pre + find s close_marker i =? -1) with false
        by (symmetry; apply Z.eqb_neq; lia).
      f_equal. lia.
  - rewrite find_app by lia.
    destruct (find_bounds s open_marker i) as [H|H]; [lia| |].
    + rewrite H. simpl. rewrite slice_from_app by lia.
      destruct (_ && _); [reflexivity|]. f_equal. lia.
    + replace (find s open_marker i =? -1) with false
        by (symmetry; apply Z.eqb_neq; lia).
      replace (find s open_marker i >=? 0) with true
        by (symmetry; rewrite Z.geb_leb; apply Z.leb_le; lia).
      replace (len pre + find s open_marker i >=? 0) with true
        by (symmetry; rewrite Z.geb_leb; apply Z.leb_le; lia).
      rewrite slice_app by lia.
      destruct (truthy _); [reflexivity|]. f_equal. lia.
Qed.

Lemma while_loop_app (fuel : nat) (pre s : str) (i : Z) (c : bool) :
  0 <= i ->
  while_loop fuel (pre ++ s) (len pre + i) c = while_loop fuel s i c.
Proof.
  revert i c. induction fuel as [|fuel IH]; intros i c H0;
    cbn [while_loop]; rewrite len_app;
    replace (len pre + i <? len pre + len s) with (i <? len s)
      by (destruct (i <? len s) eqn:E; symmetry;
          [apply Z.ltb_lt; apply Z.ltb_lt in E|
           apply Z.ltb_ge; apply Z.ltb_ge in E]; lia);
    [reflexivity|].
  destruct (i <? len s) eqn:E; [|reflexivity].
  apply Z.ltb_lt in E.
  rewrite loop_body_app by lia.
  destruct (loop_body s i c) as [r|i' c'] eqn:B; [reflexivity|].
  apply loop_body_progress in B; [|lia].
  apply IH. lia.
Qed.

(** The scan from a position depends only on the line from there on. *)
Lemma scan_app (pre s : str) (i : Z) (c : bool) :
  0 <= i -> scan (pre ++ s) (len pre + i) c = scan s i c.
Proof.
  intros H0. unfold scan. rewrite len_app.
  replace (len pre + len s - (len pre + i)) with (len s - i) by lia.
  now apply while_loop_app.
Qed.

(** The loop reports code only from outside a comment. *)
Lemma while_loop_code (fuel : nat) (line : str) (idx : Z) (c0 c : bool) :
  while_loop fuel line idx c0 = Some (true, c) -> c = false.
Proof.
  revert idx c0. induction fuel as [|fuel IH]; intros idx c0;
    cbn [while_loop]; destruct (idx <? len line); intros E;
    try discriminate E.
  destruct (loop_body line idx c0) as [r|idx' c'] eqn:B;
    [|exact (IH _ _ E)].
  injection E as ->. revert B. unfold loop_body.
  destruct c0.
  - destruct (_ =? _); discriminate.
  - destruct (_ >=? _); [destruct (truthy _)|destruct (_ && _)];
      intros B; inversion B; reflexivity.
Qed.

End Loop.

(** ** Comments and code along a line *)

Section Segments.

Lemma find_0 (s sub : str) : find s sub 0 = find_at sub s 0.
Proof.
  unfold find. pose proof (len_nonneg s).
  replace (len s <? 0) with false by (symmetry; apply Z.ltb_ge; lia).
  reflexivity.
Qed.

Lemma find_0_app (s t sub : str) :
  find s sub 0 <> -1 -> find (s ++ t) sub 0 = find s sub 0.
Proof.
  rewrite !find_0. intros H. apply find_at_app_found; [lia|exact H].
Qed.

Lemma find_at_whitespace (ws rest : str) (pos : Z) :
  forallb isspace ws = true ->
  find_at open_marker (ws ++ open_marker ++ rest) pos = pos + len ws.
Proof.
  revert pos. induction ws as [|w ws IH]; intros pos H.
  - simpl. unfold len. simpl. lia.
  - simpl in H. apply andb_true_iff in H. destruct H as [Hw Hws].
    cbn [app find_at].
    replace (startswith (w :: ws ++ open_marker ++ rest) open_marker)
      with false
      by (symmetry; change open_marker with [47%N; 42%N];
          cbn [startswith]; now rewrite (isspace_not_slash w Hw)).
    rewrite IH by assumption. unfold len. simpl length. lia.
Qed.

Lemma slice_0_app (a b : str) : slice (a ++ b) 0 (len a) = a.
Proof.
  unfold slice, len. simpl skipn.
  replace (Z.to_nat (Z.of_nat (length a) - 0)) with (length a + 0)%nat by lia.
  rewrite firstn_app_2. simpl. apply app_nil_r.
Qed.

Lemma scan_nonempty (a m rest : str) :
  0 < len m -> (0 <? len (a ++ m ++ rest)) = true.
Proof.
  intros H. apply Z.ltb_lt. rewrite !len_app.
  pose proof (len_nonneg a). pose proof (len_nonneg rest). lia.
Qed.

(** Inside a comment, the scan goes on after the first close marker. *)
Lemma scan_close (body rest : str) :
  closes_at_end body ->
  scan (body ++ close_marker ++ rest) 0 true = scan rest 0 false.
Proof.
  unfold closes_at_end. intros H. pose proof (len_nonneg body) as Hb.
  rewrite scan_unfold, scan_nonempty by (rewrite ?len_close_marker; lia).
  unfold loop_body. rewrite app_assoc, find_0_app, H by lia.
  replace (len body =? -1) with false by (symmetry; apply Z.eqb_neq; lia).
  replace (len body + 2) with (len (body ++ close_marker) + 0)
    by (rewrite len_app, len_close_marker; lia).
  apply scan_app. lia.
Qed.

(** Outside a comment, whitespace before an open marker is passed over and
    the scan goes on inside the comment. *)
Lemma scan_open (ws rest : str) :
  forallb isspace ws = true ->
  scan (ws ++ open_marker ++ rest) 0 false = scan rest 0 true.
Proof.
  intros H. pose proof (len_nonneg ws) as Hw.
  rewrite scan_unfold, scan_nonempty by (rewrite ?len_open_marker; lia).
  unfold loop_body. rewrite find_0, find_at_whitespace by assumption.
  replace (0 + len ws >=? 0) with true
    by (symmetry; rewrite Z.geb_leb; apply Z.leb_le; lia).
  replace (0 + len ws) with (len ws) by lia.
  rewrite slice_0_app, strip_whitespace by assumption. simpl truthy. cbv iota.
  rewrite app_assoc.
  replace (len ws + 2) with (len (ws ++ open_marker) + 0)
    by (rewrite len_app, len_open_marker; lia).
  apply scan_app. lia.
Qed.

(** Outside a comment, anything but whitespace before the next open marker
    is code. *)
Lemma scan_code (code rest : str) :
  opens_at_end code ->
  existsb nonspace code = true ->
  scan (code ++ open_marker ++ rest) 0 false = Some (true, false).
Proof.
  unfold opens_at_end. intros H Hc. pose proof (len_nonneg code) as Hl.
  rewrite scan_unfold, scan_nonempty by (rewrite ?len_open_marker; lia).
  unfold loop_body. rewrite app_assoc, find_0_app, H by lia.
  replace (len code >=? 0) with true
    by (symmetry; rewrite Z.geb_leb; apply Z.leb_le; lia).
  rewrite <- app_assoc, slice_0_app, truthy_strip, Hc. reflexivity.
Qed.

End Segments.

(** ** What is left of a line outside a comment *)

Section Remainders.

Lemma lstrip_app_whitespace (ws t : str) :
  forallb isspace ws = true -> lstrip (ws ++ t) = lstrip t.
Proof.
  induction ws as [|w ws IH]; intros H; [reflexivity|].
  simpl in *. apply andb_true_iff in H. destruct H as [-> H]. now apply IH.
Qed.

Lemma strip_app_whitespace (ws t : str) :
  forallb isspace ws = true -> strip (ws ++ t) = strip t.
Proof.
  intros H. unfold strip. now rewrite lstrip_app_whitespace.
Qed.

Lemma forallb_isspace_rev (ws : str) :
  forallb isspace (rev ws) = forallb isspace ws.
Proof.
  induction ws as [|w ws IH]; [reflexivity|].
  simpl. rewrite forallb_app, IH. simpl.
  rewrite andb_true_r. apply andb_comm.
Qed.

(** [strip] of a word between whitespace is the word, when the word starts
    and ends with characters that are not whitespace. *)
Lemma strip_padded (ws1 ws2 x y : str) (c d : char) :
  forallb isspace ws1 = true -> forallb isspace ws2 = true ->
  isspace c = false -> isspace d = false -> rev (c :: x) = d :: y ->
  strip (ws1 ++ (c :: x) ++ ws2) = c :: x.
Proof.
  intros H1 H2 Hc Hd E. rewrite strip_app_whitespace by assumption.
  unfold strip, rstrip. cbn [app lstrip]. rewrite Hc.
  change (c :: x ++ ws2) with ((c :: x) ++ ws2).
  rewrite rev_app_distr, lstrip_app_whitespace
    by (now rewrite forallb_isspace_rev).
  rewrite E. cbn [lstrip]. rewrite Hd, <- E. apply rev_involutive.
Qed.

Lemma find_at_no_star (s : str) (pos : Z) :
  existsb is_star s = false -> find_at open_marker s pos = -1.
Proof.
  revert pos. induction s as [|c s IH]; intros pos H; [reflexivity|].
  simpl in H. apply orb_false_iff in H. destruct H as [_ H].
  cbn [find_at].
  replace (startswith (c :: s) open_marker) with false.
  - now apply IH.
  - change open_marker with [47%N; 42%N]. cbn [startswith].
    destruct s as [|d s]; [now rewrite andb_false_r|].
    simpl in H. apply orb_false_iff in H. destruct H as [H _].
    unfold is_star in H. rewrite H. now rewrite andb_false_r.
Qed.

Lemma whitespace_no_star (ws : str) :
  forallb isspace ws = true -> existsb is_star ws = false.
Proof.
  induction ws as [|w ws IH]; intros H; [reflexivity|].
  simpl in *. apply andb_true_iff in H. destruct H as [Hw H].
  rewrite IH by assumption. rewrite orb_false_r.
  unfold is_star. destruct (42 =? w)%N eqn:E; [|reflexivity].
  apply N.eqb_eq in E. subst w. discriminate.
Qed.

(** A pass outside a comment that finds no open marker and no code moves
    the scan position by one character. *)
Lemma scan_skip (c : char) (s : str) :
  find_at open_marker (c :: s) 0 = -1 ->
  truthy (strip (c :: s))
    && negb (str_in (strip (c :: s)) [backslash; line_comment]) = false ->
  scan (c :: s) 0 false = scan s 0 false.
Proof.
  intros Hf Hx. rewrite scan_unfold by lia.
  replace (0 <? len (c :: s)) with true
    by (symmetry; apply Z.ltb_lt; unfold len; simpl length; lia).
  unfold loop_body. rewrite find_0, Hf. cbn [Z.geb Z.compare].
  rewrite slice_from_0, Hx.
  change (c :: s) with ([c] ++ s).
  change (0 + 1) with (len [c] + 0). apply scan_app. lia.
Qed.

(** Leading whitespace of a remainder that holds no code is passed over,
    one character per pass. *)
Lemma scan_leading_whitespace (ws t : str) :
  forallb isspace ws = true -> existsb is_star t = false ->
  truthy (strip t) && negb (str_in (strip t) [backslash; line_comment])
    = false ->
  scan (ws ++ t) 0 false = scan t 0 false.
Proof.
  intros Hws Ht Hx. induction ws as [|w ws IH]; [reflexivity|].
  pose proof Hws as Hall. simpl in Hws. apply andb_true_iff in Hws.
  destruct Hws as [Hw Hws].
  cbn [app]. rewrite scan_skip.
  - now apply IH.
  - apply find_at_no_star. change (w :: ws ++ t) with ((w :: ws) ++ t).
    rewrite existsb_app, Ht, whitespace_no_star by assumption. reflexivity.
  - change (w :: ws ++ t) with ((w :: ws) ++ t).
    now rewrite strip_app_whitespace.
Qed.

(** A remainder of whitespace only holds no code. *)
Lemma scan_whitespace (ws : str) :
  forallb isspace ws = true -> scan ws 0 false = Some (false, false).
Proof.
  intros H. rewrite <- (app_nil_r ws).
  rewrite scan_leading_whitespace by (assumption || reflexivity).
  reflexivity.
Qed.

(** A remainder that is a lone backslash holds no code. *)
Lemma scan_lone_backslash (ws1 ws2 : str) :
  forallb isspace ws1 = true -> forallb isspace ws2 = true ->
  scan (ws1 ++ backslash ++ ws2) 0 false = Some (false, false).
Proof.
  intros H1 H2.
  assert (E : strip (backslash ++ ws2) = backslash)
    by (apply (strip_padded [] ws2 [] [] 92%N 92%N); reflexivity || assumption).
  assert (S : existsb is_star (backslash ++ ws2) = false)
    by (rewrite existsb_app, (whitespace_no_star ws2) by assumption; reflexivity).
  rewrite scan_leading_whitespace; [|assumption|exact S|now rewrite E].
  change (backslash ++ ws2) with (@cons char 92%N ws2) in *.
  rewrite scan_skip; [now apply scan_whitespace| |now rewrite E].
  now apply find_at_no_star.
Qed.

(** A remainder that is a lone ["//"] is reported as code: once the scan
    position has passed the first slash, the remainder is ["/"]. *)
Lemma scan_lone_line_comment (ws1 ws2 : str) :
  forallb isspace ws1 = true -> forallb isspace ws2 = true ->
  scan (ws1 ++ line_comment ++ ws2) 0 false = Some (true, false).
Proof.
  intros H1 H2.
  assert (E : strip (line_comment ++ ws2) = line_comment)
    by (apply (strip_padded [] ws2 [47%N] [47%N] 47%N 47%N);
        reflexivity || assumption).
  assert (E1 : strip (@cons char 47%N ws2) = [47%N])
    by (apply (strip_padded [] ws2 [] [] 47%N 47%N); reflexivity || assumption).
  assert (S : existsb is_star (line_comment ++ ws2) = false)
    by (rewrite existsb_app, (whitespace_no_star ws2) by assumption; reflexivity).
  rewrite scan_leading_whitespace; [|assumption|exact S|now rewrite E].
  change (line_comment ++ ws2) with (@cons char 47%N (@cons char 47%N ws2)) in *.
  rewrite scan_skip; [| now apply find_at_no_star | now rewrite E].
  rewrite scan_unfold by lia.
  replace (0 <? len (@cons char 47%N ws2)) with true
    by (symmetry; apply Z.ltb_lt; unfold len; simpl length; lia).
  unfold loop_body. rewrite find_0, find_at_no_star.
  - cbn [Z.geb Z.compare]. rewrite slice_from_0, E1. reflexivity.
  - simpl in S. exact S.
Qed.

(** Inside a comment, a remainder with no close marker is comment to the
    end of the line. *)
Lemma scan_unclosed (body : str) :
  find body close_marker 0 = -1 -> scan body 0 true = Some (false, true).
Proof.
  intros H. rewrite scan_unfold by lia.
  destruct (0 <? len body); [|reflexivity].
  unfold loop_body. now rewrite H.
Qed.

End Remainders.

(** ** Facts about the file counter's loop *)

Section Counter.

Lemma classify_and_count_total (v : locals) (stripped : str) :
  exists v', classify_and_count v stripped = Some v' /\
             real v <= real v' <= real v + 1.
Proof.
  unfold classify_and_count.
  destruct (look_for_code_in_line_total stripped) as [[found c] ->].
  eexists. split; [reflexivity|]. simpl. destruct found; lia.
Qed.

(** One line adds nothing or one to the counter. *)
Lemma for_body_total (v : locals) (raw : str) :
  exists v', for_body v raw = Some v' /\ real v <= real v' <= real v + 1.
Proof.
  unfold for_body.
  destruct (negb _); [exists v; split; [reflexivity|lia]|].
  destruct (startswith _ line_comment); [exists v; split; [reflexivity|lia]|].
  destruct (startswith _ open_marker); [apply classify_and_count_total|].
  destruct (in_block_comment v); [apply classify_and_count_total|].
  eexists. split; [reflexivity|]. simpl. lia.
Qed.

Lemma for_loop_lines (lines : list str) (v : locals) :
  exists v', for_loop (map Line lines) v = Some (v', None) /\
             real v <= real v' <= real v + Z.of_nat (length lines).
Proof.
  revert v. induction lines as [|raw lines IH]; intros v.
  - exists v. split; [reflexivity|]. simpl. lia.
  - cbn [map for_loop].
    destruct (for_body_total v raw) as [v1 [-> H1]].
    destruct (IH v1) as [v2 [-> H2]].
    exists v2. split; [reflexivity|]. cbn [length]. lia.
Qed.

(** Reads after a run of lines start from the variables that the lines
    leave. *)
Lemma for_loop_app (lines : list str) (rest : list read) (v : locals) :
  exists v', for_loop (map Line lines) v = Some (v', None) /\
             for_loop (map Line lines ++ rest) v = for_loop rest v'.
Proof.
  revert v. induction lines as [|raw lines IH]; intros v.
  - exists v. split; reflexivity.
  - cbn [map app for_loop].
    destruct (for_body_total v raw) as [v1 [-> _]]. apply IH.
Qed.

End Counter.

(** ** The repository's tests, on the model *)

Section Tests.

(** The cases of [tests/test_look_for_code_in_line.py]. *)
Example test_printed_cases :
  look_for_code_in_line (py "*/ test") = Some (true, false) /\
  look_for_code_in_line (py "*/ ") = Some (false, false) /\
  look_for_code_in_line (py "*/ test /* */") = Some (true, false) /\
  look_for_code_in_line (py "*/ /* */") = Some (false, false) /\
  look_for_code_in_line (py "*/ test /* */ /* */") = Some (true, false) /\
  look_for_code_in_line (py "*//* test *//* */ /* */") = Some (false, false) /\
  look_for_code_in_line (py "test") = Some (false, true) /\
  look_for_code_in_line (py "test */ /* ") = Some (false, true) /\
  look_for_code_in_line (py "test */ \") = Some (false, false).
Proof. repeat split; reflexivity. Qed.

(** The counts of [tests/test_count_lines.py]. *)
Example test_inline_and_block_comments :
  count_real_lines (readable main_c) = Some (Returns 7) /\
  count_real_lines (readable utils_h) = Some (Returns 4).
Proof. split; reflexivity. Qed.

Example test_empty_file :
  count_real_lines (readable empty_c) = Some (Returns 0) /\
  count_real_lines (readable generated_c) = Some (Returns 1).
Proof. split; reflexivity. Qed.

End Tests.

(** ** The claims *)




(** C2 (the code at the failing input). After the close marker of
    ["*/ //"] the remainder is a lone ["//"], which is excluded, but the
    scan position moves by one only: two passes later the remainder is
    ["/"], and the line is reported as code. A file whose comment ends on
    such a line has that line counted. *)
Theorem lone_line_comment_reported_as_code :
  loop_body (py "*/ //") 2 false = Continue 3 false /\
  loop_body (py "*/ //") 3 false = Continue 4 false /\
  loop_body (py "*/ //") 4 false = Return (true, false) /\
  look_for_code_in_line (py "*/ //") = Some (true, false) /\
  count_real_lines (readable [nl (py "/*"); nl (py "*/ //")])
    = Some (Returns 1).
Proof. repeat split; reflexivity. Qed.

(** The same on every line of that shape: after a comment that closes, a
    remainder that is a lone ["//"] between whitespace is reported as code,
    while one that is whitespace or a lone backslash is not. *)
Lemma remainder_after_close (body ws1 ws2 : str) :
  closes_at_end body ->
  forallb isspace ws1 = true -> forallb isspace ws2 = true ->
  look_for_code_in_line (body ++ close_marker ++ ws1 ++ line_comment ++ ws2)
    = Some (true, false) /\
  look_for_code_in_line (body ++ close_marker ++ ws1 ++ backslash ++ ws2)
    = Some (false, false) /\
  look_for_code_in_line (body ++ close_marker ++ ws1) = Some (false, false).
Proof.
  intros Hb H1 H2. rewrite !look_for_code_in_line_scan.
  rewrite <- (app_nil_r ws1) at 3. rewrite !scan_close by assumption.
  rewrite app_nil_r.
  now rewrite scan_lone_line_comment, scan_lone_backslash, scan_whitespace.
Qed.

(** C3 (as the code has it). An error of class [Exception] raised by the
    open or by a read never leaves [count_real_lines]. Raised by the open,
    the result is zero; raised by a read, the result is the count of the
    lines read before it, the one the file cut there would have. *)
Theorem io_error_swallowed (e : exn) (lines : list str) (rest : list read) :
  is_Exception e = true ->
  count_real_lines (OpenRaises e) = Some (Returns 0) /\
  exists n,
    count_real_lines (Opened (map Line lines ++ Raises e :: rest))
      = Some (Returns n) /\
    count_real_lines (readable lines) = Some (Returns n).
Proof.
  intros He. split.
  - unfold count_real_lines. now rewrite He.
  - unfold count_real_lines, readable.
    destruct (for_loop_app lines (Raises e :: rest) initial) as [v [H1 H2]].
    rewrite H1, H2. cbn [for_loop]. rewrite He. now exists (real v).
Qed.

Lemma io_error_swallowed_oserror :
  is_Exception OSError = true /\
  count_real_lines (OpenRaises OSError) = Some (Returns 0) /\
  exists n,
    count_real_lines
      (Opened (map Line [py "int x;"; py "// c"] ++ Raises OSError :: []))
      = Some (Returns n) /\
    count_real_lines (readable [py "int x;"; py "// c"]) = Some (Returns n).
Proof.
  split; [reflexivity|].
  apply (io_error_swallowed OSError [py "int x;"; py "// c"] []).
  reflexivity.
Defined.

(** C3 as stated fails: an I/O error at the second read, after a line of
    code, leaves the result at one, not zero. *)
Lemma io_error_after_code_not_zero :
  count_real_lines (Opened [Line (py "int x;"); Raises OSError])
    <> Some (Returns 0).
Proof. vm_compute. discriminate. Qed.

(** C4. After the close marker of the comment the line starts in, any
    number of comments, each after whitespace only, are passed over left to
    right in the one scan: nothing in them counts, and the answer is that of
    the scan of what follows them outside a comment. Code that follows
    them, before a further open marker, is reported, whatever comes after
    that marker; ["*/ test /* */ /* */"] gives [(True, False)]. When only
    whitespace follows them, no code is reported, whatever the comments
    hold, and the line ends outside a comment; when a further comment is
    opened and not closed, no code is reported and the line ends inside
    it; ["*//* test *//* */ /* */"] gives [(False, False)]. *)
Theorem comment_pairs_resolved
        (first : str) (l : list (str * str)) (tail code rest : str) :
  closes_at_end first -> Forall well_formed l ->
  opens_at_end code -> existsb nonspace code = true ->
  look_for_code_in_line (first ++ close_marker ++ comments l ++ tail)
    = scan tail 0 false /\
  look_for_code_in_line
    (first ++ close_marker ++ comments l ++ code ++ open_marker ++ rest)
    = Some (true, false) /\
  look_for_code_in_line (py "*/ test /* */ /* */") = Some (true, false) /\
  (forall ws, forallb isspace ws = true ->
     look_for_code_in_line (first ++ close_marker ++ comments l ++ ws)
     = Some (false, false)) /\
  (forall gap body,
     forallb isspace gap = true -> find body close_marker 0 = -1 ->
     look_for_code_in_line
       (first ++ close_marker ++ comments l ++ gap ++ open_marker ++ body)
     = Some (false, true)) /\
  look_for_code_in_line (py "*//* test *//* */ /* */") = Some (false, false).
Proof.
  intros Hfirst Hl Hcode Hne.
  assert (G : forall t, look_for_code_in_line
                          (first ++ close_marker ++ comments l ++ t)
                        = scan t 0 false).
  { intros t. rewrite look_for_code_in_line_scan, scan_close by assumption.
    induction Hl as [|[gap body] l [Hgap Hbody] Hl IH]; [reflexivity|].
    cbn [comments fst snd] in *. unfold comment.
    rewrite <- !app_assoc, scan_open by assumption.
    rewrite scan_close by assumption. exact IH. }
  split; [apply G|]. split; [rewrite G; now apply scan_code|].
  split; [reflexivity|]. split; [|split; [|reflexivity]].
  - intros ws Hws. rewrite G. now apply scan_whitespace.
  - intros gap body Hgap Hbody. rewrite G, scan_open by assumption.
    now apply scan_unclosed.
Qed.

Lemma comment_pairs_resolved_example :
  look_for_code_in_line
    ([] ++ close_marker ++ comments [(py " ", py " x ")]
        ++ py " test " ++ open_marker ++ py " */ /* */")
    = Some (true, false) /\
  look_for_code_in_line
    ([] ++ close_marker ++ comments [(py " ", py " x ")] ++ py "  ")
    = Some (false, false) /\
  look_for_code_in_line
    ([] ++ close_marker ++ comments [(py " ", py " x ")]
        ++ py " " ++ open_marker ++ py " int y; ")
    = Some (false, true).
Proof.
  assert (H : closes_at_end [] /\ Forall well_formed [(py " ", py " x ")]
              /\ opens_at_end (py " test ")
              /\ existsb nonspace (py " test ") = true).
  { split; [reflexivity|]. split; [|split; reflexivity].
    constructor; [split; reflexivity|constructor]. }
  destruct H as [H1 [H2 [H3 H4]]].
  destruct (comment_pairs_resolved
              [] [(py " ", py " x ")] [] (py " test ") (py " */ /* */")
              H1 H2 H3 H4) as [_ [A [_ [B [C _]]]]].
  split; [exact A|]. split.
  - apply (B (py "  ")). reflexivity.
  - apply (C (py " ") (py " int y; ")); reflexivity.
Defined.

(** C5. The file counter folds its per-line step over the lines: the lines
    up to any cut leave local variables, without error, from which the
    lines after the cut give the local variables and the count of the whole
    file. *)
Theorem count_real_lines_split (pre suf : list str) :
  exists v1 v2,
    for_loop (map Line pre) initial = Some (v1, None) /\
    for_loop (map Line suf) v1 = Some (v2, None) /\
    for_loop (map Line (pre ++ suf)) initial = Some (v2, None) /\
    count_real_lines (readable (pre ++ suf)) = Some (Returns (real v2)).
Proof.
  destruct (for_loop_app pre (map Line suf) initial) as [v1 [H1 H2]].
  destruct (for_loop_lines suf v1) as [v2 [H3 _]].
  exists v1, v2. rewrite map_app, H2, H3.
  repeat split; try assumption.
  unfold count_real_lines, readable. now rewrite map_app, H2, H3.
Qed.

(** C6. A line that starts with ["//"] once its leading whitespace is
    trimmed leaves the counter and [in_block_comment] as they were,
    whatever [in_block_comment] was. *)
Theorem line_comment_skipped (v : locals) (raw : str) :
  startswith (lstrip (rstrip_nl raw)) line_comment = true ->
  for_body v raw = Some v.
Proof.
  intros H. unfold for_body.
  rewrite truthy_strip, <- existsb_lstrip.
  rewrite (startswith_nonspace _ _ _ H) by reflexivity.
  cbn [negb]. now rewrite H.
Qed.

Lemma line_comment_skipped_inside_comment :
  startswith (lstrip (rstrip_nl (py "   // */ int x;"))) line_comment = true /\
  for_body (mkLocals true 3) (py "   // */ int x;") = Some (mkLocals true 3).
Proof.
  split; [reflexivity|].
  apply (line_comment_skipped (mkLocals true 3) (py "   // */ int x;")).
  reflexivity.
Defined.

(** C7. A line of whitespace only leaves the counter and
    [in_block_comment] as they were, whatever [in_block_comment] was. *)
Theorem blank_line_skipped (v : locals) (raw : str) :
  forallb isspace (rstrip_nl raw) = true ->
  for_body v raw = Some v.
Proof.
  intros H. unfold for_body. now rewrite strip_whitespace.
Qed.

Lemma blank_line_skipped_inside_comment :
  forallb isspace (rstrip_nl [32; 9; 32; 10]%N) = true /\
  for_body (mkLocals true 3) [32; 9; 32; 10]%N = Some (mkLocals true 3).
Proof.
  split; [reflexivity|].
  apply (blank_line_skipped (mkLocals true 3) [32; 9; 32; 10]%N).
  reflexivity.
Defined.

(** C8. For a file read to its end, [count_real_lines] returns a number
    between zero and the number of lines. *)
Theorem count_real_lines_bounded (lines : list str) :
  exists n, count_real_lines (readable lines) = Some (Returns n) /\
            0 <= n <= Z.of_nat (length lines).
Proof.
  unfold count_real_lines, readable.
  destruct (for_loop_lines lines initial) as [v [-> H]].
  exists (real v). split; [reflexivity|]. simpl in H. lia.
Qed.

(** C9. Every pass through the loop that goes on moves the scan position
    forward, within the line; so the loop is left after at most
    [len(line)] passes, and the classifier answers on every line. *)
Theorem scan_position_increases (line : str) (idx : Z) (c : bool) :
  0 <= idx < len line ->
  (forall idx' c', loop_body line idx c = Continue idx' c' ->
                   idx < idx' <= len line) /\
  (exists r, while_loop (length line) line 0 true = Some r /\
             look_for_code_in_line line = Some r).
Proof.
  intros H. split.
  - intros idx' c'. now apply loop_body_progress.
  - destruct (look_for_code_in_line_total line) as [r Hr]. now exists r.
Qed.

Lemma scan_position_increases_example :
  (forall idx' c',
      loop_body (py "*/ x /* y") 0 true = Continue idx' c' ->
      0 < idx' <= len (py "*/ x /* y")) /\
  (exists r, while_loop (length (py "*/ x /* y")) (py "*/ x /* y") 0 true
             = Some r /\
             look_for_code_in_line (py "*/ x /* y") = Some r).
Proof.
  apply (scan_position_increases (py "*/ x /* y") 0 true).
  vm_compute. split; [discriminate|reflexivity].
Defined.

(** C10. When the classifier reports code, the state it returns is "not
    inside a block comment", also when an open marker that is never closed
    follows the code. *)
Theorem code_implies_outside_comment (line : str) (c : bool) :
  look_for_code_in_line line = Some (true, c) -> c = false.
Proof.
  unfold look_for_code_in_line. apply while_loop_code.
Qed.

Lemma code_implies_outside_comment_unclosed :
  look_for_code_in_line (py "*/ x /* never closed") = Some (true, false) /\
  false = false.
Proof.
  split; [reflexivity|].
  apply (code_implies_outside_comment (py "*/ x /* never closed") false).
  reflexivity.
Defined.


(** ** Further facts about the file counter *)

Section CounterCases.

Lemma no_close_marker_result (line : str) :
  find line close_marker 0 = -1 ->
  look_for_code_in_line line = Some (false, true).
Proof.
  intros H. unfold look_for_code_in_line.
  destruct line as [|c line]; [reflexivity|].
  cbn [length while_loop].
  replace (0 <? len (c :: line)) with true
    by (symmetry; apply Z.ltb_lt; unfold len; simpl length; lia).
  unfold loop_body. now rewrite H.
Qed.

Lemma startswith_open_not_line_comment (s : str) :
  startswith s open_marker = true -> startswith s line_comment = false.
Proof.
  change open_marker with [47%N; 42%N].
  change line_comment with [47%N; 47%N].
  destruct s as [|a [|b s]]; cbn [startswith]; intros H.
  - discriminate H.
  - now rewrite andb_false_r in H.
  - apply andb_true_iff in H. destruct H as [_ H].
    apply andb_true_iff in H. destruct H as [H _].
    apply N.eqb_eq in H. subst b. apply andb_false_r.
Qed.

Lemma startswith_open_nonblank (raw : str) :
  startswith (stripped_line raw) open_marker = true ->
  truthy (strip (rstrip_nl raw)) = true.
Proof.
  intros H. rewrite truthy_strip, <- existsb_lstrip.
  now apply (startswith_nonspace _ _ _ H).
Qed.

(** The routes of the loop body, by the line as trimmed. *)
Lemma for_body_routes (v : locals) (raw : str) :
  for_body v raw =
  if plain raw then
    if startswith (stripped_line raw) open_marker || in_block_comment v
    then classify_and_count v (stripped_line raw)
    else Some (mkLocals (in_block_comment v) (real v + 1))
  else Some v.
Proof.
  unfold for_body, plain, stripped_line.
  destruct (truthy (strip (rstrip_nl raw))); [|reflexivity].
  cbn [negb andb].
  destruct (startswith (lstrip (rstrip_nl raw)) line_comment); [reflexivity|].
  cbn [negb].
  destruct (startswith (lstrip (rstrip_nl raw)) open_marker); reflexivity.
Qed.

Lemma plain_of_opener (raw : str) :
  startswith (stripped_line raw) open_marker = true -> plain raw = true.
Proof.
  intros H. unfold plain.
  now rewrite startswith_open_nonblank, startswith_open_not_line_comment.
Qed.

(** Inside a block comment, a line with no close marker changes nothing. *)
Lemma for_body_unclosed (v : locals) (raw : str) :
  in_block_comment v = true -> unclosed raw -> for_body v raw = Some v.
Proof.
  intros Hv H. rewrite for_body_routes.
  destruct (plain raw); [|reflexivity].
  rewrite Hv, orb_true_r. unfold classify_and_count.
  rewrite no_close_marker_result by exact H.
  destruct v as [b n]. simpl in *. now subst b.
Qed.

(** Outside a block comment, a line that does not start with an open
    marker counts when it is plain, and the next line is outside too. *)
Lemma for_body_outside (n : Z) (raw : str) :
  startswith (stripped_line raw) open_marker = false ->
  for_body (mkLocals false n) raw
  = Some (mkLocals false (n + (if plain raw then 1 else 0))).
Proof.
  intros H. rewrite for_body_routes, H. cbn [in_block_comment real orb].
  destruct (plain raw); [reflexivity|]. now rewrite Z.add_0_r.
Qed.

Lemma for_loop_outside (lines : list str) (n : Z) :
  Forall (fun raw => startswith (stripped_line raw) open_marker = false)
         lines ->
  for_loop (map Line lines) (mkLocals false n)
  = Some (mkLocals false (n + Z.of_nat (length (filter plain lines))), None).
Proof.
  intros H. revert n. induction H as [|raw lines Hraw _ IH]; intros n.
  - simpl. now rewrite Z.add_0_r.
  - cbn [map for_loop filter]. rewrite for_body_outside by assumption.
    rewrite IH. destruct (plain raw); cbn [length];
      do 3 f_equal; lia.
Qed.

Lemma for_loop_unclosed (lines : list str) (v : locals) :
  in_block_comment v = true -> Forall unclosed lines ->
  for_loop (map Line lines) v = Some (v, None).
Proof.
  intros Hv H. induction H as [|raw lines Hraw _ IH]; [reflexivity|].
  cbn [map for_loop]. now rewrite for_body_unclosed.
Qed.

(** Comments one after the other are passed over. *)
Lemma scan_comments (l : list (str * str)) (t : str) :
  Forall well_formed l -> scan (comments l ++ t) 0 false = scan t 0 false.
Proof.
  intros H. induction H as [|[gap body] l [Hgap Hbody] _ IH]; [reflexivity|].
  cbn [comments fst snd] in *. unfold comment.
  rewrite <- !app_assoc, scan_open by assumption.
  now rewrite scan_close.
Qed.

End CounterCases.

Section CounterCases2.

(** Outside a comment, a remainder with no open marker that is not
    whitespace, a lone backslash or a lone line-comment marker is code. *)
Lemma scan_code_at_end (t : str) :
  find t open_marker 0 = -1 ->
  truthy (strip t) && negb (str_in (strip t) [backslash; line_comment]) = true ->
  scan t 0 false = Some (true, false).
Proof.
  intros Hf Hc. destruct t as [|c t]; [discriminate|].
  rewrite scan_unfold by lia.
  replace (0 <? len (c :: t)) with true
    by (symmetry; apply Z.ltb_lt; unfold len; simpl length; lia).
  unfold loop_body. rewrite Hf. cbn [Z.geb Z.compare].
  now rewrite slice_from_0, Hc.
Qed.

(** The classifier on a line whose first comment closes: the answer is
    that of what follows the comments. *)
Lemma look_after_comments (first : str) (l : list (str * str)) (t : str) :
  closes_at_end first -> Forall well_formed l ->
  look_for_code_in_line (first ++ close_marker ++ comments l ++ t)
  = scan t 0 false.
Proof.
  intros Hf Hl.
  rewrite look_for_code_in_line_scan, scan_close by assumption.
  now apply scan_comments.
Qed.

Lemma for_body_classified (v : locals) (raw : str) :
  plain raw = true ->
  startswith (stripped_line raw) open_marker = true
  \/ in_block_comment v = true ->
  for_body v raw = classify_and_count v (stripped_line raw).
Proof.
  intros Hp H. rewrite for_body_routes, Hp.
  destruct H as [-> | ->]; [reflexivity|now rewrite orb_true_r].
Qed.

Lemma for_loop_snoc (lines : list str) (raw : str) (v v1 : locals) :
  for_loop (map Line lines) v = Some (v1, None) ->
  for_loop (map Line (lines ++ [raw])) v =
  match for_body v1 raw with
  | Some v2 => Some (v2, None)
  | None => None
  end.
Proof.
  intros H. rewrite map_app.
  destruct (for_loop_app lines (map Line [raw]) v) as [v' [H1 H2]].
  rewrite H2. rewrite H in H1. injection H1 as <-.
  cbn [map for_loop]. now destruct (for_body v1 raw).
Qed.

End CounterCases2.

(** ** Further properties of the classifier and of the file counter *)

(** X1. While the file counter is inside a block comment, lines that hold
    no close marker, however many, are not counted and leave it inside the
    comment. *)
Theorem comment_lines_not_counted (v : locals) (lines : list str) :
  in_block_comment v = true -> Forall unclosed lines ->
  for_loop (map Line lines) v = Some (v, None).
Proof. apply for_loop_unclosed. Qed.

Lemma comment_lines_not_counted_example :
  for_loop (map Line [nl (py "int x = 1;"); nl (py "   "); nl (py "/* y"); py "// z"])
           (mkLocals true 5)
  = Some (mkLocals true 5, None).
Proof.
  apply (comment_lines_not_counted (mkLocals true 5)).
  - reflexivity.
  - repeat constructor.
Defined.

(** X2. When no line starts with an open marker once trimmed, block
    comments are never seen: every line that is neither blank nor a line
    comment counts, also the lines of a comment that was opened after code
    on its line. *)
Theorem comment_opened_after_code_ignored (lines : list str) :
  Forall (fun raw => startswith (stripped_line raw) open_marker = false)
         lines ->
  count_real_lines (readable lines)
  = Some (Returns (Z.of_nat (length (filter plain lines)))).
Proof.
  intros H. unfold count_real_lines, readable, initial.
  now rewrite for_loop_outside.
Qed.

Lemma comment_opened_after_code_ignored_example :
  count_real_lines
    (readable [nl (py "int x; /* the comment starts here");
               nl (py "   and goes on");
               nl (py "   and ends here */");
               nl (py "// a line comment");
               py "int y;"])
  = Some (Returns 4).
Proof.
  apply (comment_opened_after_code_ignored
           [nl (py "int x; /* the comment starts here");
            nl (py "   and goes on");
            nl (py "   and ends here */");
            nl (py "// a line comment");
            py "int y;"]).
  repeat constructor.
Defined.

(** X3. The classifier looks for the close marker from the start of the
    line, the characters of an open marker there included: on a line that
    starts with an open marker and a slash, the star and that slash close
    the comment, and the line is classified by what follows them, outside
    a comment. *)
Theorem opener_closed_by_overlap (rest : str) :
  look_for_code_in_line (open_marker ++ py "/" ++ rest) = scan rest 0 false.
Proof.
  change (open_marker ++ py "/" ++ rest)
    with ([47%N] ++ close_marker ++ rest).
  rewrite look_for_code_in_line_scan. apply scan_close. reflexivity.
Qed.

(** X4. A line made of block comments and whitespace only, taken by the
    classifier because it starts with an open marker or because the
    counter is inside a comment, is not counted and leaves the counter
    outside a comment. *)
Theorem comment_only_line_not_counted
        (v : locals) (raw first ws : str) (l : list (str * str)) :
  plain raw = true ->
  startswith (stripped_line raw) open_marker = true
  \/ in_block_comment v = true ->
  stripped_line raw = first ++ close_marker ++ comments l ++ ws ->
  closes_at_end first -> Forall well_formed l ->
  forallb isspace ws = true ->
  for_body v raw = Some (mkLocals false (real v)).
Proof.
  intros Hp Hr E Hf Hl Hws.
  rewrite for_body_classified by assumption.
  unfold classify_and_count.
  now rewrite E, look_after_comments, scan_whitespace.
Qed.

Lemma comment_only_line_not_counted_example :
  for_body (mkLocals false 2) (nl (py "   /* a */ /* b */  "))
  = Some (mkLocals false 2).
Proof.
  apply (comment_only_line_not_counted
           (mkLocals false 2) (nl (py "   /* a */ /* b */  "))
           (py "/* a ") (py "  ") [(py " ", py " b ")]).
  - reflexivity.
  - left. reflexivity.
  - reflexivity.
  - reflexivity.
  - constructor; [split; reflexivity|constructor].
  - reflexivity.
Defined.

(** X5. A line taken by the classifier that ends, after its comments, with
    text that holds no open marker and is not whitespace, a lone backslash
    or a lone line-comment marker, is counted once and leaves the counter
    outside a comment. *)
Theorem code_after_comments_counted
        (v : locals) (raw first code : str) (l : list (str * str)) :
  plain raw = true ->
  startswith (stripped_line raw) open_marker = true
  \/ in_block_comment v = true ->
  stripped_line raw = first ++ close_marker ++ comments l ++ code ->
  closes_at_end first -> Forall well_formed l ->
  find code open_marker 0 = -1 ->
  truthy (strip code)
    && negb (str_in (strip code) [backslash; line_comment]) = true ->
  for_body v raw = Some (mkLocals false (real v + 1)).
Proof.
  intros Hp Hr E Hf Hl Ho Hc.
  rewrite for_body_classified by assumption.
  unfold classify_and_count.
  now rewrite E, look_after_comments, scan_code_at_end.
Qed.

Lemma code_after_comments_counted_example :
  for_body (mkLocals true 2) (nl (py "  end of it */ /* b */ int x;"))
  = Some (mkLocals false 3).
Proof.
  apply (code_after_comments_counted
           (mkLocals true 2) (nl (py "  end of it */ /* b */ int x;"))
           (py "end of it ") (py " int x;") [(py " ", py " b ")]).
  - reflexivity.
  - right. reflexivity.
  - reflexivity.
  - reflexivity.
  - constructor; [split; reflexivity|constructor].
  - reflexivity.
  - reflexivity.
Defined.

(** X6. A block comment over several lines: the line that opens it and
    does not close it and the lines up to the closing one are not counted;
    the closing line, unless blank or a line comment, is counted exactly
    when the classifier finds code on it. *)
Theorem block_comment_over_lines
        (v : locals) (opener closing : str) (middle : list str)
        (found inside : bool) :
  startswith (stripped_line opener) open_marker = true ->
  unclosed opener -> Forall unclosed middle ->
  plain closing = true ->
  look_for_code_in_line (stripped_line closing) = Some (found, inside) ->
  for_loop (map Line (opener :: middle ++ [closing])) v
  = Some (mkLocals inside (if found then real v + 1 else real v), None).
Proof.
  intros Ho Hu Hm Hp Hc.
  change (opener :: middle ++ [closing])
    with ((opener :: middle) ++ [closing]).
  rewrite (for_loop_snoc _ _ _ (mkLocals true (real v))).
  - rewrite for_body_classified by (assumption || now right).
    unfold classify_and_count. now rewrite Hc.
  - cbn [map for_loop].
    rewrite for_body_classified by (now apply plain_of_opener || now left).
    unfold classify_and_count. rewrite no_close_marker_result by assumption.
    cbn [real]. now apply for_loop_unclosed.
Qed.

Lemma block_comment_over_lines_example :
  for_loop (map Line (nl (py "  /* a comment") ::
                      [nl (py "     that goes on"); nl []]
                      ++ [nl (py "  */ int x;")]))
           initial
  = Some (mkLocals false 1, None).
Proof.
  apply (block_comment_over_lines
           initial (nl (py "  /* a comment")) (nl (py "  */ int x;"))
           [nl (py "     that goes on"); nl []] true false).
  - reflexivity.
  - reflexivity.
  - repeat constructor.
  - reflexivity.
  - reflexivity.
Defined.

(** X7. An exception that does not derive from [Exception], raised by the
    open or by a read, is not caught: it leaves [count_real_lines], and no
    count is returned. *)
Theorem non_exception_propagates
        (e : exn) (lines : list str) (rest : list read) :
  is_Exception e = false ->
  count_real_lines (OpenRaises e) = Some (Propagates e) /\
  count_real_lines (Opened (map Line lines ++ Raises e :: rest))
  = Some (Propagates e).
Proof.
  intros He. unfold count_real_lines. split.
  - now rewrite He.
  - destruct (for_loop_app lines (Raises e :: rest) initial) as [v [_ H]].
    rewrite H. cbn [for_loop]. now rewrite He.
Qed.

Lemma non_exception_propagates_interrupt :
  count_real_lines (OpenRaises KeyboardInterrupt)
  = Some (Propagates KeyboardInterrupt) /\
  count_real_lines
    (Opened (map Line [py "int x;"] ++ Raises KeyboardInterrupt :: []))
  = Some (Propagates KeyboardInterrupt).
Proof.
  apply (non_exception_propagates KeyboardInterrupt [py "int x;"] []).
  reflexivity.
Defined.

(** X8. Blank lines and lines that start with the line-comment marker
    never count: the result is at most the number of the other lines. *)
Theorem count_at_most_plain_lines (lines : list str) :
  exists n, count_real_lines (readable lines) = Some (Returns n) /\
            0 <= n <= Z.of_nat (length (filter plain lines)).
Proof.
  unfold count_real_lines, readable.
  assert (G : forall v, exists v',
               for_loop (map Line lines) v = Some (v', None) /\
               real v <= real v'
               <= real v + Z.of_nat (length (filter plain lines))).
  { induction lines as [|raw lines IH]; intros v.
    - exists v. split; [reflexivity|]. simpl. lia.
    - cbn [map for_loop filter].
      destruct (for_body_total v raw) as [v1 [E1 H1]].
      rewrite E1. destruct (IH v1) as [v2 [E2 H2]].
      exists v2. split; [exact E2|].
      rewrite for_body_routes in E1. destruct (plain raw).
      + cbn [length]. lia.
      + injection E1 as <-. lia. }
  destruct (G initial) as [v [-> H]].
  exists (real v). split; [reflexivity|]. simpl in H. lia.
Qed.

(** ** Facts about the walk *)

Section Walk.

Lemma str_eqb_eq (a b : str) : str_eqb a b = true <-> a = b.
Proof.
  revert b. induction a as [|x a IH]; intros [|y b]; simpl;
    try (split; [discriminate|discriminate]); [tauto|].
  rewrite andb_true_iff, N.eqb_eq, IH. split.
  - intros [-> ->]. reflexivity.
  - intros E. injection E as -> ->. split; reflexivity.
Qed.

Lemma str_in_In (s : str) (l : list str) : str_in s l = true <-> In s l.
Proof.
  unfold str_in. rewrite existsb_exists. split.
  - intros [x [Hx E]]. apply str_eqb_eq in E. now subst x.
  - intros H. exists s. split; [exact H|]. now apply str_eqb_eq.
Qed.

Lemma path_eqb_eq (a b : path) : path_eqb a b = true <-> a = b.
Proof.
  revert b. induction a as [|x a IH]; intros [|y b]; simpl;
    try (split; [discriminate|discriminate]); [tauto|].
  rewrite andb_true_iff, str_eqb_eq, IH. split.
  - intros [-> ->]. reflexivity.
  - intros E. injection E as -> ->. split; reflexivity.
Qed.

Lemma path_eqb_refl (a : path) : path_eqb a a = true.
Proof. now apply path_eqb_eq. Qed.

Lemma has_part_spec (p : path) (excludes : list str) :
  has_part p excludes = true <-> exists exc, In exc excludes /\ In exc p.
Proof.
  unfold has_part. rewrite existsb_exists.
  split; intros [exc [H1 H2]]; exists exc; split; try assumption;
    now apply str_in_In.
Qed.

Lemma has_part_app (root rel : path) (excludes : list str) :
  has_part root excludes = true -> has_part (root ++ rel) excludes = true.
Proof.
  rewrite !has_part_spec. intros [exc [H1 H2]]. exists exc.
  split; [exact H1|]. apply in_or_app. now left.
Qed.

(** The walk with a list of excludes: a filter of what [rglob] hands
    over, and no [TypeError]. *)
Lemma walk_with_list (w : world) (root : path) (excludes exts : list str)
      (below : list path) :
  walk w root (Some excludes) exts below
  = mkGenerated
      (map (fun rel => (root ++ rel, rel))
           (filter (fun rel => candidate w exts (root ++ rel)
                               && negb (has_part (root ++ rel) excludes))
                   below))
      false.
Proof.
  induction below as [|rel below IH]; [reflexivity|].
  cbn [walk filter any_excluded]. fold (candidate w exts (root ++ rel)).
  fold (has_part (root ++ rel) excludes).
  destruct (candidate w exts (root ++ rel)); [|exact IH].
  destruct (has_part (root ++ rel) excludes); [exact IH|].
  cbn [andb negb map]. rewrite IH. reflexivity.
Qed.

(** The walk with [None] for the excludes: nothing is handed over, and the
    first candidate raises [TypeError]. *)
Lemma walk_with_none (w : world) (root : path) (exts : list str)
      (below : list path) :
  walk w root None exts below
  = mkGenerated [] (existsb (fun rel => candidate w exts (root ++ rel)) below).
Proof.
  induction below as [|rel below IH]; [reflexivity|].
  cbn [walk existsb any_excluded]. fold (candidate w exts (root ++ rel)).
  destruct (candidate w exts (root ++ rel)); [reflexivity|exact IH].
Qed.

End Walk.

(** ** Further properties: the source files of a tree *)

(** X9. On a directory, with a list of excludes, [iter_source_files] hands
    over exactly the paths of the walk that are files with a suffix of
    [exts] and of which no component, the components of the root included,
    equals an exclude; each comes with its parts below the root, and no
    [TypeError] is raised. *)
Theorem iter_source_files_directory
        (w : world) (root : path) (excludes exts : list str)
        (p rel_parts : path) :
  is_file w root = false -> is_dir w root = true ->
  type_error (iter_source_files w root (Some excludes) exts) = false /\
  (In (p, rel_parts) (items (iter_source_files w root (Some excludes) exts))
   <-> In rel_parts (rglob w root) /\ p = root ++ rel_parts /\
       is_file w p = true /\ In (suffix w (name p)) exts /\
       forall exc, In exc excludes -> ~ In exc p).
Proof.
  intros Hf Hd. unfold iter_source_files. rewrite Hf, Hd, walk_with_list.
  split; [reflexivity|]. cbn [items].
  rewrite in_map_iff. split.
  - intros [rel [E H]]. injection E as <- <-.
    apply filter_In in H. destruct H as [Hin H].
    apply andb_true_iff in H. destruct H as [Hc Hx].
    unfold candidate in Hc. apply andb_true_iff in Hc. destruct Hc as [H1 H2].
    repeat split; try assumption.
    + now apply str_in_In.
    + intros exc He Hp. apply negb_true_iff in Hx.
      assert (G : has_part (root ++ rel) excludes = true)
        by (apply has_part_spec; now exists exc).
      congruence.
  - intros [Hin [-> [H1 [H2 H3]]]]. exists rel_parts.
    split; [reflexivity|]. apply filter_In. split; [exact Hin|].
    apply andb_true_iff. split.
    + unfold candidate. rewrite H1. now apply str_in_In.
    + apply negb_true_iff.
      destruct (has_part (root ++ rel_parts) excludes) eqn:G; [|reflexivity].
      apply has_part_spec in G. destruct G as [exc [He Hp]].
      now destruct (H3 exc He).
Qed.

Lemma iter_source_files_directory_test :
  type_error (iter_source_files test_world test_root
                                (Some [py "auto_gen"]) DEFAULT_EXTS) = false /\
  (In (test_root ++ [py "main.c"], [py "main.c"])
      (items (iter_source_files test_world test_root
                                (Some [py "auto_gen"]) DEFAULT_EXTS))
   <-> In [py "main.c"] (rglob test_world test_root) /\
       test_root ++ [py "main.c"] = test_root ++ [py "main.c"] /\
       is_file test_world (test_root ++ [py "main.c"]) = true /\
       In (suffix test_world (name (test_root ++ [py "main.c"])))
          DEFAULT_EXTS /\
       forall exc, In exc [py "auto_gen"] ->
                   ~ In exc (test_root ++ [py "main.c"])).
Proof.
  apply (iter_source_files_directory
           test_world test_root [py "auto_gen"] DEFAULT_EXTS
           (test_root ++ [py "main.c"]) [py "main.c"]); reflexivity.
Defined.

(** X10. The excludes are compared with every component of a path, those
    of the root included: when an exclude equals a component of the root,
    nothing is handed over, for a file as for a directory. *)
Theorem exclude_of_root_component
        (w : world) (root : path) (excludes exts : list str) (exc : str) :
  In exc excludes -> In exc root ->
  iter_source_files w root (Some excludes) exts = mkGenerated [] false.
Proof.
  intros He Hr.
  assert (G : has_part root excludes = true)
    by (apply has_part_spec; now exists exc).
  unfold iter_source_files. destruct (is_file w root).
  - destruct (str_in _ exts); [|reflexivity].
    cbn [any_excluded]. fold (has_part root excludes). now rewrite G.
  - destruct (is_dir w root); [|reflexivity].
    rewrite walk_with_list. f_equal.
    replace (filter _ (rglob w root)) with (@nil path); [reflexivity|].
    symmetry. induction (rglob w root) as [|rel l IH]; [reflexivity|].
    cbn [filter]. rewrite (has_part_app root rel excludes G).
    now rewrite andb_false_r.
Qed.

Lemma exclude_of_root_component_test :
  iter_source_files test_world test_root (Some [py "build"; py "tmp"])
                    DEFAULT_EXTS
  = mkGenerated [] false.
Proof.
  apply (exclude_of_root_component
           test_world test_root [py "build"; py "tmp"] DEFAULT_EXTS (py "tmp")).
  - right. left. reflexivity.
  - right. left. reflexivity.
Defined.

(** ** Facts about the report *)

Section Report.

Lemma path_eqb_sym (a b : path) : path_eqb a b = path_eqb b a.
Proof.
  destruct (path_eqb a b) eqn:E1, (path_eqb b a) eqn:E2; try reflexivity.
  - apply path_eqb_eq in E1. subst b. now rewrite path_eqb_refl in E2.
  - apply path_eqb_eq in E2. subst b. now rewrite path_eqb_refl in E1.
Qed.

Lemma dict_get_set (d : dict) (k k' : path) (v default : Z) :
  dict_get (dict_set d k v) k' default
  = if path_eqb k k' then v else dict_get d k' default.
Proof.
  induction d as [|[k0 v0] d IH]; cbn [dict_set dict_get].
  - reflexivity.
  - destruct (path_eqb k0 k) eqn:E.
    + apply path_eqb_eq in E. subst k0. cbn [dict_get].
      now destruct (path_eqb k k').
    + cbn [dict_get]. destruct (path_eqb k0 k') eqn:E'; [|exact IH].
      apply path_eqb_eq in E'. subst k0.
      rewrite path_eqb_sym in E. now rewrite E.
Qed.

Lemma dict_keys_set (d : dict) (k k' : path) (v : Z) :
  In k' (dict_keys (dict_set d k v)) <-> In k' (dict_keys d) \/ k' = k.
Proof.
  unfold dict_keys. induction d as [|[k0 v0] d IH]; cbn [dict_set map In fst].
  - split; [intros [H|[]]; right; now symmetry|intros [[]|H]; left; now symmetry].
  - destruct (path_eqb k0 k) eqn:E.
    + apply path_eqb_eq in E. subst k0. cbn [map In fst].
      split; [tauto|]. intros [H|H]; [exact H|left; now symmetry].
    + cbn [map In fst]. rewrite IH. tauto.
Qed.

Lemma dict_keys_set_NoDup (d : dict) (k : path) (v : Z) :
  NoDup (dict_keys d) -> NoDup (dict_keys (dict_set d k v)).
Proof.
  unfold dict_keys. induction d as [|[k0 v0] d IH]; cbn [dict_set map fst].
  - intros _. constructor; [intros []|constructor].
  - intros H. inversion H as [|x l Hn Hd]. subst.
    destruct (path_eqb k0 k) eqn:E; cbn [map fst].
    + now constructor.
    + constructor; [|now apply IH].
      intros Hin. apply (dict_keys_set d k k0 v) in Hin.
      destruct Hin as [Hin| ->]; [now apply Hn|].
      now rewrite path_eqb_refl in E.
Qed.

Lemma add_to_prefixes_snoc (rel_parts : path) (fc : Z) (c : dict) (n : nat) :
  add_to_prefixes rel_parts fc c (seq 0 (S n))
  = let c' := add_to_prefixes rel_parts fc c (seq 0 n) in
    let key := firstn (n + 1) rel_parts in
    dict_set c' key (dict_get c' key 0 + fc).
Proof.
  unfold add_to_prefixes. rewrite seq_S, fold_left_app. reflexivity.
Qed.

(** [hit] from one pass to the next: the pass [n] hits the prefix of
    length [n + 1], and that one only. *)
Lemma hit_S (n : nat) (rel_parts key : path) :
  (n < length rel_parts)%nat ->
  hit (S n) rel_parts key
  = path_eqb (firstn (n + 1) rel_parts) key || hit n rel_parts key.
Proof.
  intros Hn. unfold hit.
  destruct (path_eqb (firstn (n + 1) rel_parts) key) eqn:E.
  - apply path_eqb_eq in E. subst key.
    rewrite length_firstn, Nat.min_l by lia.
    rewrite path_eqb_refl.
    replace (1 <=? n + 1)%nat with true by (symmetry; apply Nat.leb_le; lia).
    replace (n + 1 <=? S n)%nat with true by (symmetry; apply Nat.leb_le; lia).
    reflexivity.
  - cbn [orb].
    destruct (length key <=? n)%nat eqn:L.
    + apply Nat.leb_le in L.
      replace (length key <=? S n)%nat with true
        by (symmetry; apply Nat.leb_le; lia).
      reflexivity.
    + apply Nat.leb_gt in L.
      destruct (length key <=? S n)%nat eqn:L'; [|reflexivity].
      apply Nat.leb_le in L'. replace (length key) with (n + 1)%nat by lia.
      rewrite path_eqb_sym, E. now rewrite !andb_false_r.
Qed.

Lemma hit_0 (rel_parts key : path) : hit 0 rel_parts key = false.
Proof.
  unfold hit. destruct key; [reflexivity|]. reflexivity.
Qed.

Lemma hit_not_yet (n : nat) (rel_parts : path) :
  (n < length rel_parts)%nat ->
  hit n rel_parts (firstn (n + 1) rel_parts) = false.
Proof.
  intros Hn. unfold hit. rewrite length_firstn, Nat.min_l by lia.
  replace (n + 1 <=? n)%nat with false by (symmetry; apply Nat.leb_gt; lia).
  now rewrite andb_false_r.
Qed.

(** What the inner loop of [main] adds to each key. *)
Lemma dict_get_add_to_prefixes
      (rel_parts : path) (fc : Z) (c : dict) (n : nat) (key : path) :
  (n <= length rel_parts)%nat ->
  dict_get (add_to_prefixes rel_parts fc c (seq 0 n)) key 0
  = dict_get c key 0 + (if hit n rel_parts key then fc else 0).
Proof.
  induction n as [|n IH]; intros Hn.
  - rewrite hit_0. cbn. lia.
  - rewrite add_to_prefixes_snoc. cbv zeta. rewrite dict_get_set.
    rewrite hit_S by lia.
    destruct (path_eqb (firstn (n + 1) rel_parts) key) eqn:E.
    + apply path_eqb_eq in E. subst key. cbn [orb].
      rewrite IH by lia. rewrite hit_not_yet by lia. lia.
    + cbn [orb]. apply IH. lia.
Qed.

Lemma dict_keys_add_to_prefixes
      (rel_parts : path) (fc : Z) (c : dict) (n : nat) (key : path) :
  (n <= length rel_parts)%nat ->
  In key (dict_keys (add_to_prefixes rel_parts fc c (seq 0 n)))
  <-> In key (dict_keys c) \/ hit n rel_parts key = true.
Proof.
  induction n as [|n IH]; intros Hn.
  - rewrite hit_0. cbn [seq add_to_prefixes fold_left].
    split; [tauto|intros [H|H]; [exact H|discriminate]].
  - rewrite add_to_prefixes_snoc. cbv zeta. rewrite dict_keys_set.
    rewrite IH by lia. rewrite hit_S by lia. rewrite orb_true_iff.
    rewrite path_eqb_eq. split.
    + intros [[H|H]|H]; [tauto|tauto|]. subst key. right. left. reflexivity.
    + intros [H|[H|H]]; [tauto| |tauto]. right. now symmetry.
Qed.

Lemma NoDup_add_to_prefixes (rel_parts : path) (fc : Z) (c : dict) (n : nat) :
  NoDup (dict_keys c) ->
  NoDup (dict_keys (add_to_prefixes rel_parts fc c (seq 0 n))).
Proof.
  intros H. induction n as [|n IH]; [exact H|].
  rewrite add_to_prefixes_snoc. cbv zeta. now apply dict_keys_set_NoDup.
Qed.

Lemma passes_le (depth : Z) (rel_parts : path) :
  (passes depth rel_parts <= length rel_parts)%nat.
Proof. unfold passes. lia. Qed.

Lemma hit_passes (depth : Z) (rel_parts key : path) :
  hit (passes depth rel_parts) rel_parts key = reported depth key rel_parts.
Proof.
  unfold hit, reported, above, passes.
  destruct (1 <=? length key)%nat eqn:E1; [|reflexivity].
  apply Nat.leb_le in E1. cbn [andb].
  destruct (path_eqb key (firstn (length key) rel_parts));
    [|now rewrite !andb_false_r].
  rewrite !andb_true_r.
  destruct (length key <? length rel_parts)%nat eqn:E2.
  - apply Nat.ltb_lt in E2. cbn [andb].
    destruct (Z.of_nat (length key) <=? depth) eqn:E3.
    + apply Z.leb_le in E3. apply Nat.leb_le. lia.
    + apply Z.leb_gt in E3. apply Nat.leb_gt. lia.
  - apply Nat.ltb_ge in E2. cbn [andb]. apply Nat.leb_gt. lia.
Qed.

End Report.

Section Tally.

Lemma count_at_returns (w : world) (p : path) (n : Z) :
  count_real_lines (contents w p) = Some (Returns n) -> count_at w p = n.
Proof. unfold count_at. now intros ->. Qed.

(** The first loop of [main] in a calm world. *)
Lemma tally_files_calm (w : world) (depth : Z) (l : list (path * path))
      (t : tally) :
  calm w ->
  exists t',
    tally_files w depth l t = Some (inl t') /\
    total t' = total t + total_of w l /\
    (forall key, dict_get (counts t') key 0
                 = dict_get (counts t) key 0 + total_under w depth key l) /\
    (forall key, In key (dict_keys (counts t'))
                 <-> In key (dict_keys (counts t))
                     \/ has_file_under depth key l) /\
    (NoDup (dict_keys (counts t)) -> NoDup (dict_keys (counts t'))).
Proof.
  intros Hw. revert t. induction l as [|[p rel] l IH]; intros t.
  - exists t. cbn [tally_files total_of total_under].
    repeat split; try lia; try tauto.
    intros [H|[p [rel [[] _]]]]. exact H.
  - cbn [tally_files total_of total_under].
    destruct (Hw p) as [n Hn]. rewrite Hn.
    rewrite (count_at_returns _ _ _ Hn).
    destruct (IH (add_file depth rel n t)) as [t' [E [HT [HG [HK HN]]]]].
    exists t'. split; [exact E|].
    unfold add_file in *. cbn [total counts] in *.
    fold (passes depth rel) in *.
    split; [lia|]. split; [|split].
    + intros key. rewrite HG.
      rewrite dict_get_add_to_prefixes by apply passes_le.
      rewrite hit_passes. lia.
    + intros key. rewrite HK.
      rewrite dict_keys_add_to_prefixes by apply passes_le.
      rewrite hit_passes. unfold has_file_under. split.
      * intros [[H|H]|[q [r [Hin Hr]]]]; [tauto| |].
        -- right. exists p, rel. split; [now left|exact H].
        -- right. exists q, r. split; [now right|exact Hr].
      * intros [H|[q [r [[E'|Hin] Hr]]]]; [tauto| |].
        -- injection E' as <- <-. tauto.
        -- right. exists q, r. tauto.
    + intros H. apply HN. now apply NoDup_add_to_prefixes.
Qed.

Lemma insert_sorted_In (k x : path) (l : list path) :
  In x (insert_sorted k l) <-> x = k \/ In x l.
Proof.
  induction l as [|y l IH]; cbn [insert_sorted In].
  - split; [intros [H|[]]; left; now symmetry|intros [H|[]]; left; now symmetry].
  - destruct (str_ltb (rank y) (rank k)); cbn [In].
    + rewrite IH. tauto.
    + split; [intros [H|H]; [left; now symmetry|tauto]
             |intros [H|H]; [left; now symmetry|tauto]].
Qed.

Lemma sorted_In (x : path) (l : list path) : In x (sorted l) <-> In x l.
Proof.
  unfold sorted. induction l as [|y l IH]; cbn [fold_right In]; [tauto|].
  rewrite insert_sorted_In, IH. split; intros [H|H]; auto.
Qed.

Lemma insert_sorted_NoDup (k : path) (l : list path) :
  ~ In k l -> NoDup l -> NoDup (insert_sorted k l).
Proof.
  induction l as [|y l IH]; cbn [insert_sorted]; intros Hk Hl.
  - constructor; [intros []|constructor].
  - destruct (str_ltb (rank y) (rank k)).
    + inversion Hl as [|z m Hy Hm]. subst. constructor.
      * rewrite insert_sorted_In. intros [->|H]; [|now apply Hy].
        apply Hk. now left.
      * apply IH; [|exact Hm]. intros H. apply Hk. now right.
    + now constructor.
Qed.

Lemma sorted_NoDup (l : list path) : NoDup l -> NoDup (sorted l).
Proof.
  unfold sorted. induction l as [|y l IH]; cbn [fold_right]; intros H.
  - constructor.
  - inversion H as [|z m Hy Hm]. subst.
    apply insert_sorted_NoDup; [|now apply IH].
    fold (sorted l). now rewrite sorted_In.
Qed.

Lemma str_ltb_irrefl (a : str) : str_ltb a a = false.
Proof.
  induction a as [|x a IH]; [reflexivity|].
  cbn [str_ltb]. now rewrite N.ltb_irrefl, N.eqb_refl, IH.
Qed.

Lemma str_ltb_cons (x y : char) (a b : str) :
  str_ltb (x :: a) (y :: b) = true
  <-> (x < y)%N \/ (x = y /\ str_ltb a b = true).
Proof.
  cbn [str_ltb]. rewrite orb_true_iff, andb_true_iff, N.ltb_lt, N.eqb_eq.
  tauto.
Qed.

Lemma str_ltb_trans (a b c : str) :
  str_ltb a b = true -> str_ltb b c = true -> str_ltb a c = true.
Proof.
  revert b c. induction a as [|x a IH]; intros [|y b] [|z c];
    try discriminate; try reflexivity.
  rewrite !str_ltb_cons. intros [H1|[-> H1]] [H2|[-> H2]].
  - left. lia.
  - now left.
  - now left.
  - right. split; [reflexivity|]. now apply (IH b).
Qed.

Lemma str_ltb_total (a b : str) :
  str_ltb a b = false -> str_ltb b a = false -> a = b.
Proof.
  revert b. induction a as [|x a IH]; intros [|y b]; try discriminate;
    [reflexivity|].
  cbn [str_ltb]. rewrite !orb_false_iff, !andb_false_iff.
  rewrite !N.ltb_ge, !N.eqb_neq. intros [H1 H2] [H3 H4].
  assert (x = y) by lia. subst y. f_equal.
  apply IH; [destruct H2|destruct H4]; congruence.
Qed.

Lemma key_le_trans (k1 k2 k3 : path) :
  key_le k1 k2 -> key_le k2 k3 -> key_le k1 k3.
Proof.
  unfold key_le. intros H1 H2.
  destruct (str_ltb (rank k3) (rank k1)) eqn:E; [|reflexivity].
  destruct (str_ltb (rank k1) (rank k2)) eqn:E'.
  - now rewrite (str_ltb_trans _ _ _ E E') in H2.
  - rewrite (str_ltb_total _ _ E' H1) in E. congruence.
Qed.

Lemma key_le_of_lt (k1 k2 : path) :
  str_ltb (rank k1) (rank k2) = true -> key_le k1 k2.
Proof.
  unfold key_le. intros H.
  destruct (str_ltb (rank k2) (rank k1)) eqn:E; [|reflexivity].
  pose proof (str_ltb_trans _ _ _ H E) as G.
  now rewrite str_ltb_irrefl in G.
Qed.

Lemma insert_sorted_StronglySorted (k : path) (l : list path) :
  StronglySorted key_le l -> StronglySorted key_le (insert_sorted k l).
Proof.
  induction l as [|y l IH]; cbn [insert_sorted]; intros H.
  - constructor; [constructor|constructor].
  - inversion H as [|z m Hm Hy]. subst.
    destruct (str_ltb (rank y) (rank k)) eqn:E.
    + constructor; [now apply IH|].
      apply Forall_forall. intros z Hz. apply insert_sorted_In in Hz.
      destruct Hz as [->|Hz]; [now apply key_le_of_lt|].
      rewrite Forall_forall in Hy. now apply Hy.
    + constructor; [exact H|]. constructor; [exact E|].
      apply Forall_forall. intros z Hz. rewrite Forall_forall in Hy.
      apply (key_le_trans k y z); [exact E|now apply Hy].
Qed.

Lemma sorted_StronglySorted (l : list path) : StronglySorted key_le (sorted l).
Proof.
  unfold sorted. induction l as [|y l IH]; cbn [fold_right].
  - constructor.
  - now apply insert_sorted_StronglySorted.
Qed.






Lemma type_error_with_list (w : world) (root : path) (excludes exts : list str) :
  type_error (iter_source_files w root (Some excludes) exts) = false.
Proof.
  unfold iter_source_files. destruct (is_file w root).
  - destruct (str_in _ exts); [|reflexivity].
    cbn [any_excluded]. now destruct (existsb _ excludes).
  - destruct (is_dir w root); [|reflexivity]. now rewrite walk_with_list.
Qed.

(** What [main] prints in a calm world, for a list of excludes. *)
Lemma main_prints (w : world) (root : path) (excludes exts : list str)
      (depth : Z) :
  calm w ->
  let l := items (iter_source_files w root (Some excludes) exts) in
  exists keys,
    NoDup keys /\
    (forall key, In key keys <-> has_file_under depth key l) /\
    main w root (Some excludes) exts depth
    = Some (Printed
              (map (fun key => directory_line key (total_under w depth key l))
                   keys
               ++ [total_line (total_of w l)])) /\
    StronglySorted key_le keys.
Proof.
  intros Hw l.
  destruct (tally_files_calm w depth l (mkTally 0 []) Hw)
    as [t [E [HT [HG [HK HN]]]]].
  cbn [total counts dict_get dict_keys map] in *.
  exists (sorted (dict_keys (counts t))). split; [|split; [|split]].
  - apply sorted_NoDup, HN. constructor.
  - intros key. rewrite sorted_In, HK. split; [intros [[]|H]; exact H|tauto].
  - unfold main. fold l. rewrite E, type_error_with_list.
    do 3 f_equal.
    + apply map_ext. intros key. unfold report_line, directory_line.
      now rewrite HG.
    + now rewrite HT.
  - apply sorted_StronglySorted.
Qed.

Lemma calm_readable (lines : list str) :
  exists n, count_real_lines (readable lines) = Some (Returns n).
Proof.
  unfold count_real_lines, readable.
  destruct (for_loop_lines lines initial) as [v [-> _]]. now exists (real v).
Qed.

Lemma calm_test_world : calm test_world.
Proof.
  intros p. cbn [contents test_world].
  destruct (lines_at test_files (skipn 3 p)) as [lines|];
    [|now exists 0].
  destruct (path_in p _); [apply calm_readable|now exists 0].
Qed.

End Tally.

(** ** Further properties: the report *)

(** X11. In a calm world, for a list of excludes, [main] prints one line
    for each directory key that is, within [depth], a proper prefix of the
    parts below the root of some file handed over, each key once and with
    the sum of the counts of the files below it, and then the line of the
    total, the sum of the counts of all the files handed over. *)
Theorem main_report (w : world) (root : path) (excludes exts : list str)
        (depth : Z) :
  calm w ->
  exists keys,
    NoDup keys /\
    (forall key,
        In key keys
        <-> has_file_under depth key
              (items (iter_source_files w root (Some excludes) exts))) /\
    main w root (Some excludes) exts depth
    = Some (Printed
              (map (fun key =>
                      directory_line key
                        (total_under w depth key
                           (items (iter_source_files w root (Some excludes)
                                                     exts))))
                   keys
               ++ [total_line
                     (total_of w
                        (items (iter_source_files w root (Some excludes)
                                                  exts)))])).
Proof.
  intros Hw.
  destruct (main_prints w root excludes exts depth Hw)
    as [keys [HN [HK [E _]]]].
  exists keys. repeat split; try assumption; now apply HK.
Qed.

Lemma main_report_test :
  exists keys,
    NoDup keys /\
    (forall key,
        In key keys
        <-> has_file_under 1 key
              (items (iter_source_files test_world test_root (Some [])
                                        DEFAULT_EXTS))) /\
    main test_world test_root (Some []) DEFAULT_EXTS 1
    = Some (Printed
              (map (fun key =>
                      directory_line key
                        (total_under test_world 1 key
                           (items (iter_source_files test_world test_root
                                                     (Some []) DEFAULT_EXTS))))
                   keys
               ++ [total_line
                     (total_of test_world
                        (items (iter_source_files test_world test_root
                                                  (Some []) DEFAULT_EXTS)))])).
Proof.
  apply (main_report test_world test_root [] DEFAULT_EXTS 1).
  exact calm_test_world.
Defined.

(** X12. At a depth of zero or less, [main] prints the line of the total
    and nothing else. *)
Theorem main_without_depth (w : world) (root : path) (excludes exts : list str)
        (depth : Z) :
  calm w -> depth <= 0 ->
  main w root (Some excludes) exts depth
  = Some (Printed
            [total_line
               (total_of w
                  (items (iter_source_files w root (Some excludes) exts)))]).
Proof.
  intros Hw Hd.
  destruct (main_prints w root excludes exts depth Hw) as [keys [_ [HK [E _]]]].
  cbv zeta in *. rewrite E. destruct keys as [|key keys]; [reflexivity|].
  destruct (proj1 (HK key) (or_introl eq_refl)) as [p [rel [_ H]]].
  unfold reported, above in H.
  apply andb_true_iff in H. destruct H as [H1 H2].
  apply andb_true_iff in H1. destruct H1 as [H1 _].
  apply andb_true_iff in H1. destruct H1 as [H1 _].
  apply Nat.leb_le in H1. apply Z.leb_le in H2. lia.
Qed.

Lemma main_without_depth_test :
  main test_world test_root (Some []) DEFAULT_EXTS (-1)
  = Some (Printed
            [total_line
               (total_of test_world
                  (items (iter_source_files test_world test_root (Some [])
                                            DEFAULT_EXTS)))]).
Proof.
  apply (main_without_depth test_world test_root [] DEFAULT_EXTS (-1)).
  - exact calm_test_world.
  - lia.
Defined.

(** X13. For a root that is a file, [main] prints the line of the total
    and nothing else, whatever the depth: the count of the file when its
    suffix is wanted and no component of its path is excluded, zero
    otherwise. *)
Theorem main_on_a_file (w : world) (root : path) (excludes exts : list str)
        (depth : Z) :
  calm w -> is_file w root = true ->
  main w root (Some excludes) exts depth
  = Some (Printed
            [total_line
               (if candidate w exts root && negb (has_part root excludes)
                then count_at w root else 0)]).
Proof.
  intros Hw Hf.
  destruct (main_prints w root excludes exts depth Hw) as [keys [_ [HK [E _]]]].
  cbv zeta in *. rewrite E. clear E.
  assert (G : items (iter_source_files w root (Some excludes) exts)
              = if candidate w exts root && negb (has_part root excludes)
                then [(root, [name root])] else []).
  { unfold iter_source_files, candidate. rewrite Hf. cbn [andb].
    destruct (str_in _ exts); [|reflexivity].
    cbn [any_excluded]. fold (has_part root excludes).
    now destruct (has_part root excludes). }
  rewrite G in *.
  assert (K : keys = []).
  { destruct keys as [|key keys]; [reflexivity|].
    destruct (proj1 (HK key) (or_introl eq_refl)) as [p [rel [Hin H]]].
    destruct (candidate w exts root && negb (has_part root excludes));
      [|destruct Hin].
    destruct Hin as [Hin|[]]. injection Hin as <- <-.
    unfold reported, above in H. cbn [length] in H.
    apply andb_true_iff in H. destruct H as [H _].
    apply andb_true_iff in H. destruct H as [H _].
    apply andb_true_iff in H. destruct H as [H1 H2].
    apply Nat.leb_le in H1. apply Nat.ltb_lt in H2. lia. }
  subst keys. cbn [map app].
  destruct (candidate w exts root && negb (has_part root excludes));
    cbn [total_of]; [|reflexivity].
  now rewrite Z.add_0_r.
Qed.

Lemma main_on_a_file_test :
  main test_world (test_root ++ [py "main.c"]) (Some []) DEFAULT_EXTS 3
  = Some (Printed
            [total_line
               (if candidate test_world DEFAULT_EXTS
                             (test_root ++ [py "main.c"])
                   && negb (has_part (test_root ++ [py "main.c"]) [])
                then count_at test_world (test_root ++ [py "main.c"])
                else 0)]).
Proof.
  apply (main_on_a_file test_world (test_root ++ [py "main.c"]) []
                        DEFAULT_EXTS 3).
  - exact calm_test_world.
  - reflexivity.
Defined.

(** ** Further properties: the command line *)

(** X14. Without [--ext], the values of [--exclude] are dropped: on a
    directory, in a calm world, every file of the walk with a default
    suffix is counted in the total, whatever its path and whatever
    [--exclude] was given. *)
Theorem exclude_ignored_without_ext (w : world) (a : arguments) :
  calm w -> no_ext a = true ->
  is_file w (arg_path a) = false -> is_dir w (arg_path a) = true ->
  exists lines,
    script w a
    = Some (Printed
              (lines ++
               [total_line
                  (total_of w
                     (map (fun rel => (arg_path a ++ rel, rel))
                          (filter (fun rel =>
                                     candidate w DEFAULT_EXTS
                                               (arg_path a ++ rel))
                                  (rglob w (arg_path a)))))])).
Proof.
  intros Hw He Hf Hd. unfold script. rewrite He.
  destruct (main_prints w (arg_path a) [] DEFAULT_EXTS (arg_depth a) Hw)
    as [keys [_ [_ [E _]]]].
  cbv zeta in E. rewrite E. clear E.
  assert (G : items (iter_source_files w (arg_path a) (Some []) DEFAULT_EXTS)
              = map (fun rel => (arg_path a ++ rel, rel))
                    (filter (fun rel =>
                               candidate w DEFAULT_EXTS (arg_path a ++ rel))
                            (rglob w (arg_path a)))).
  { unfold iter_source_files. rewrite Hf, Hd, walk_with_list.
    cbn [items]. f_equal. apply filter_ext. intros rel.
    cbn [has_part existsb negb]. apply andb_true_r. }
  rewrite G. eexists. reflexivity.
Qed.

Lemma exclude_ignored_without_ext_test :
  exists lines,
    script test_world (mkArguments test_root (Some [py "auto_gen"]) None 0)
    = Some (Printed
              (lines ++
               [total_line
                  (total_of test_world
                     (map (fun rel => (test_root ++ rel, rel))
                          (filter (fun rel =>
                                     candidate test_world DEFAULT_EXTS
                                               (test_root ++ rel))
                                  (rglob test_world test_root))))])).
Proof.
  apply (exclude_ignored_without_ext
           test_world (mkArguments test_root (Some [py "auto_gen"]) None 0)).
  - exact calm_test_world.
  - reflexivity.
  - reflexivity.
  - reflexivity.
Defined.

(** X15. With [--ext] and without [--exclude], [main] gets [None] for the
    excludes: as soon as the root is, or the walk meets, a file with a
    wanted suffix, the run ends by [TypeError] and prints nothing. *)
Theorem type_error_without_exclude (w : world) (a : arguments) :
  no_ext a = false -> arg_exclude a = None ->
  (exists exts, arg_ext a = Some exts /\
     (candidate w exts (arg_path a) = true \/
      (is_file w (arg_path a) = false /\ is_dir w (arg_path a) = true /\
       exists rel, In rel (rglob w (arg_path a)) /\
                   candidate w exts (arg_path a ++ rel) = true))) ->
  script w a = Some TypeError.
Proof.
  intros Hn Hx [exts [He H]]. unfold script, main.
  rewrite Hn, Hx, He.
  assert (G : iter_source_files w (arg_path a) None exts
              = mkGenerated [] true).
  { unfold iter_source_files. destruct H as [H|[Hf [Hd [rel [Hin Hc]]]]].
    - unfold candidate in H. apply andb_true_iff in H.
      destruct H as [-> ->]. reflexivity.
    - rewrite Hf, Hd, walk_with_none. f_equal.
      apply existsb_exists. now exists rel. }
  rewrite G. reflexivity.
Qed.

Lemma type_error_without_exclude_test :
  script test_world (mkArguments test_root None (Some [py ".c"]) 0)
  = Some TypeError.
Proof.
  apply (type_error_without_exclude
           test_world (mkArguments test_root None (Some [py ".c"]) 0)).
  - reflexivity.
  - reflexivity.
  - exists [py ".c"]. split; [reflexivity|]. right.
    repeat split. exists [py "main.c"]. split; [now left|reflexivity].
Defined.



(** ** The repository's tests of the tree, on the model *)

Section TreeTests.

(** [test_basic_count], [test_exclude_auto_gen], [test_single_file],
    [test_empty_file] and [test_extensions]. *)
Example test_counts_of_the_tree :
  found test_root [] DEFAULT_EXTS = Some 12 /\
  found test_root [py "auto_gen"] DEFAULT_EXTS = Some 11 /\
  found (test_root ++ [py "main.c"]) [] DEFAULT_EXTS = Some 7 /\
  found (test_root ++ [py "empty.c"]) [] DEFAULT_EXTS = Some 0 /\
  found test_root [] [py ".c"] = Some 8 /\
  found test_root [] [py ".h"] = Some 4 /\
  found (test_root ++ [py "main.c"]) [] [py ".c"] = Some 7 /\
  found (test_root ++ [py "main.c"]) [] [py ".h"] = Some 0.
Proof. repeat split; reflexivity. Qed.

(** [test_depth_argument]. *)
Example test_depth_argument :
  main test_world test_root (Some []) DEFAULT_EXTS 0
  = Some (Printed [py "TOTAL: 12"]) /\
  main test_world test_root (Some []) DEFAULT_EXTS 1
  = Some (Printed [py "auto_gen/: 1"; py "TOTAL: 12"]).
Proof. split; reflexivity. Qed.

End TreeTests.
